(** * True-inflation toolkit: a shallow embedding of the two scripts

    The repository holds two Python scripts, [personal_inflation.py] and
    [personal_inflation_fred_plus.py].  Both fetch yearly averages of price
    series and the second one derives inflation statistics from them.

    Numbers.  The scripts compute with Python floats.  Here a float is either
    a real number or the not-a-number sentinel the code produces and tests
    for ([float("nan")], [math.isnan], [a == a]); arithmetic on numbers is
    exact.  Rounding, overflow and infinities of binary64 are outside this
    model; the module [Binary64] reads the weighted index on binary64 floats
    to show where the two part.  Division raises [ZeroDivisionError] on a
    zero divisor and [math.log] raises [ValueError] outside its domain, as in
    Python.

    Effects.  Exceptions are the [Raise] case of [result]; the process-level
    code ([get_key], [year_avg], [main]) runs in [proc], which threads the
    chronological list of externally visible events. *)

From Stdlib Require Import Reals Lra ZArith Ascii String Floats Uint63.
From stdpp Require Import base option list sorting strings pretty gmap.

Open Scope R_scope.

(* ===================================================================== *)
(** ** Python runtime: floats, exceptions, sequences *)
(* ===================================================================== *)

(** A Python float: a number or NaN. *)
Inductive pyfloat : Type :=
| Num (x : R)
| NaN.

(** What [sys.exit(arg)] carries: an integer status, or any other object
    (here a string), which is printed to stderr with status 1. *)
Inductive exit_arg : Type :=
| ExitCode (status : Z)
| ExitMsg (text : string).

Inductive exn : Type :=
| ZeroDivisionError
| ValueError
| KeyError (key : string)
| IOError (what : string)
| SystemExit (arg : exit_arg).

Inductive result (A : Type) : Type :=
| Ok (a : A)
| Raise (e : exn).
Arguments Ok {A} a.
Arguments Raise {A} e.

#[export] Instance result_ret : MRet result := fun A a => Ok a.
#[export] Instance result_bind : MBind result := fun A B f m =>
  match m with
  | Ok a => f a
  | Raise e => Raise e
  end.

(** [for x in xs: acc = body(acc, x)], where the body may raise. *)
Fixpoint for_each {A S : Type} (body : S -> A -> result S) (xs : list A) (acc : S)
  : result S :=
  match xs with
  | [] => Ok acc
  | x :: xs' => acc' ← body acc x; for_each body xs' acc'
  end.

(** A list comprehension [[f(x) for x in xs]] whose element expression may
    raise. *)
Fixpoint comprehension {A B : Type} (f : A -> result B) (xs : list A) : result (list B) :=
  match xs with
  | [] => Ok []
  | x :: xs' => y ← f x; ys ← comprehension f xs'; Ok (y :: ys)
  end.

Definition isnan (x : pyfloat) : bool :=
  match x with
  | NaN => true
  | Num _ => false
  end.

(** Truth value of a float: zero is false, everything else (NaN too) true. *)
Definition truthy (x : pyfloat) : bool :=
  match x with
  | Num a => if Req_dec_T a 0 then false else true
  | NaN => true
  end.

(** [x > y]; every comparison with NaN is false. *)
Definition fgt (x y : pyfloat) : bool :=
  match x, y with
  | Num a, Num b => if Rlt_dec b a then true else false
  | _, _ => false
  end.

(** [x < y]. *)
Definition flt (x y : pyfloat) : bool := fgt y x.

(** [x == y]; NaN is not equal to itself. *)
Definition feq (x y : pyfloat) : bool :=
  match x, y with
  | Num a, Num b => if Req_dec_T a b then true else false
  | _, _ => false
  end.

Definition fadd (x y : pyfloat) : pyfloat :=
  match x, y with
  | Num a, Num b => Num (a + b)
  | _, _ => NaN
  end.

Definition fsub (x y : pyfloat) : pyfloat :=
  match x, y with
  | Num a, Num b => Num (a - b)
  | _, _ => NaN
  end.

Definition fmul (x y : pyfloat) : pyfloat :=
  match x, y with
  | Num a, Num b => Num (a * b)
  | _, _ => NaN
  end.

(** [x / y]: a zero divisor raises whatever the dividend is. *)
Definition fdiv (x y : pyfloat) : result pyfloat :=
  match y with
  | Num b =>
      if Req_dec_T b 0 then Raise ZeroDivisionError
      else match x with
           | Num a => Ok (Num (a / b))
           | NaN => Ok NaN
           end
  | NaN => Ok NaN
  end.

(** [math.log(x)]. *)
Definition math_log (x : pyfloat) : result pyfloat :=
  match x with
  | Num a => if Rlt_dec 0 a then Ok (Num (ln a)) else Raise ValueError
  | NaN => Ok NaN
  end.

(** [math.exp(x)]. *)
Definition math_exp (x : pyfloat) : pyfloat :=
  match x with
  | Num a => Num (exp a)
  | NaN => NaN
  end.

(** [sum(xs)]: left to right from the integer 0. *)
Definition py_sum (xs : list pyfloat) : pyfloat := fold_left fadd xs (Num 0).

(** [len(xs)] used as a float operand. *)
Definition py_len {A : Type} (xs : list A) : pyfloat := Num (INR (length xs)).

(** [str.lower()] on ASCII text. *)
Definition lower_ascii (c : ascii) : ascii :=
  let n := nat_of_ascii c in
  if (65 <=? n)%nat && (n <=? 90)%nat then ascii_of_nat (n + 32) else c.

Fixpoint lower (s : string) : string :=
  match s with
  | EmptyString => EmptyString
  | String c s' => String (lower_ascii c) (lower s')
  end.

(** [needle in s] on strings: [needle] occurs in [s] as a substring. *)
Fixpoint py_in (needle s : string) : bool :=
  if String.prefix needle s then true
  else match s with
       | EmptyString => false
       | String _ s' => py_in needle s'
       end.

(** [sorted(xs, key=key)]: Python's sort is stable and compares keys with
    [<] only.  On keys that [<] orders totally the stable arrangement is
    unique; it is computed here by inserting the elements from left to right,
    each one behind the elements that are not greater. *)
Fixpoint insert_sorted {A K : Type} (lt : K -> K -> bool) (key : A -> K)
    (x : A) (l : list A) : list A :=
  match l with
  | [] => [x]
  | y :: l' => if lt (key x) (key y) then x :: y :: l'
               else y :: insert_sorted lt key x l'
  end.

Definition py_sorted {A K : Type} (lt : K -> K -> bool) (key : A -> K)
    (xs : list A) : list A :=
  fold_left (fun acc x => insert_sorted lt key x acc) xs [].

(** [sorted(xs, key=key, reverse=True)]: CPython reverses the list, sorts it
    and reverses the result, which keeps equal keys in their original
    order. *)
Definition py_sorted_reverse {A K : Type} (lt : K -> K -> bool) (key : A -> K)
    (xs : list A) : list A :=
  rev (py_sorted lt key (rev xs)).

(* ===================================================================== *)
(** ** personal_inflation_fred_plus.py: catalog, categories, statistics *)
(* ===================================================================== *)

(** [SERIES]: item -> (unit, FRED series id), in the order it is written
    (a dict iterates in insertion order). *)
Definition SERIES : list (string * (string * string)) :=
  [ ("Bread (white, pan)", ("lb", "APU0000702111"));
    ("Chicken breast, boneless", ("lb", "APU0000FF1101"));
    ("Rice, white, long-grain", ("lb", "APU0000701312"));
    ("Coffee, ground", ("lb", "APU0000717311"));
    ("Potatoes", ("5 lb", "APU0000712112"));
    ("Bananas", ("lb", "APU0000711211"));
    ("Peanut butter", ("16 oz", "APU0000716141"));
    ("Eggs, large", ("dozen", "APU0000708111"));
    ("Milk (whole)", ("gallon", "APU0000709111"));
    ("Ground beef (100% beef)", ("lb", "APU0000703112"));
    ("Electricity (residential)", ("cents/kWh", "APU000072610"));
    ("Natural gas (residential), per therm", ("$/therm", "APU000072620"));
    ("Gasoline, regular", ("gallon", "APU000074714")) ]%string.

Definition CATEGORY_KEYWORDS : list (string * list string) :=
  [ ("food_at_home",
      ["bread"; "chicken"; "rice"; "coffee"; "potatoes"; "banana";
       "peanut butter"; "egg"; "milk"; "ground beef"; "beef"]);
    ("utilities_electric", ["electricity"]);
    ("utilities_gas", ["natural gas"; "per therm"]);
    ("transport_fuel", ["gasoline"]) ]%string.

(** The inner loop of [categorize_item]: does some needle occur in [n]? *)
Fixpoint any_needle_in (needles : list string) (n : string) : bool :=
  match needles with
  | [] => false
  | needle :: rest => if py_in needle n then true else any_needle_in rest n
  end.

(** The outer loop of [categorize_item] over the rule list. *)
Fixpoint categorize_with (rules : list (string * list string)) (n : string) : string :=
  match rules with
  | [] => "unclassified"
  | (cat, needles) :: rest =>
      if any_needle_in needles n then cat else categorize_with rest n
  end.

(** [categorize_item(name)]; [name] is a string, so [name or ""] is [name]. *)
Definition categorize_item (name : string) : string :=
  categorize_with CATEGORY_KEYWORDS (lower name).

Definition DEFAULT_WEIGHTS : gmap string R :=
  {[ "food_at_home"%string := 0.45;
     "utilities_electric"%string := 0.20;
     "utilities_gas"%string := 0.15;
     "transport_fuel"%string := 0.20 ]}.

(** One observation of the JSON response; only its value field is read. *)
Record observation : Type := { value : string }.

(** The reduction of [year_avg] (its last two lines) on the observation list
    of the response.  [float_] is Python's [float] on strings, which raises
    [ValueError] on text that is no numeral. *)
Definition year_avg_of (float_ : string -> result pyfloat) (observations : list observation)
  : result pyfloat :=
  obs ← comprehension (fun o => float_ (value o))
         (filter (fun o => value o ∉ [""; "."]%string) observations);
  match obs with
  | [] => Ok NaN
  | _ :: _ => fdiv (py_sum obs) (py_len obs)
  end.

(** A row [(item, a, b)] of [rows_for_calc]. *)
Definition row : Type := string * pyfloat * pyfloat.

(** [a and b and a > 0 and b > 0] as a condition. *)
Definition usable (a b : pyfloat) : bool :=
  truthy a && truthy b && fgt a (Num 0) && fgt b (Num 0).

Definition compute_unweighted (rows : list row) : result (pyfloat * pyfloat) :=
  rels ← for_each (fun rels '(_, a, b) =>
                     if usable a b then r ← fdiv b a; Ok (rels ++ [r])
                     else Ok rels) rows [];
  match rels with
  | [] => Ok (NaN, NaN)
  | _ :: _ =>
      arith ← fdiv (py_sum (map (fun r => fsub r (Num 1)) rels)) (py_len rels);
      logs ← comprehension math_log rels;
      mean_log ← fdiv (py_sum logs) (py_len rels);
      Ok (arith, fsub (math_exp mean_log) (Num 1))
  end.

(** A dict with values of type [V] whose iteration order matters: the
    entries in insertion order, keys distinct. *)
Definition pydict (V : Type) : Type := list (string * V).

Fixpoint dict_get {V : Type} (d : pydict V) (k : string) : result V :=
  match d with
  | [] => Raise (KeyError k)
  | (k', v) :: d' => if decide (k' = k) then Ok v else dict_get d' k
  end.

Definition dict_keys {V : Type} (d : pydict V) : list string := map fst d.

(** [d.setdefault(k, []).append(x)]. *)
Fixpoint setdefault_append {V : Type} (d : pydict (list V)) (k : string) (x : V)
  : pydict (list V) :=
  match d with
  | [] => [(k, [x])]
  | (k', l) :: d' =>
      if decide (k' = k) then (k', l ++ [x]) :: d'
      else (k', l) :: setdefault_append d' k x
  end.

(** [cat_weights[c]] on the weight mapping. *)
Definition weight_of (cat_weights : gmap string R) (c : string) : result pyfloat :=
  match cat_weights !! c with
  | Some w => Ok (Num w)
  | None => Raise (KeyError c)
  end.

Definition compute_weighted (rows : list row) (cat_weights : gmap string R)
  : result (pyfloat * pydict pyfloat) :=
  by_cat ← for_each (fun by_cat '(item, a, b) =>
                       let cat := categorize_item item in
                       if decide (cat_weights !! cat = None) then Ok by_cat
                       else if usable a b then
                              r ← fdiv b a; Ok (setdefault_append by_cat cat r)
                            else Ok by_cat) rows [];
  match by_cat with
  | [] => Ok (NaN, [])
  | _ :: _ =>
      let present := dict_keys by_cat in
      ws ← comprehension (weight_of cat_weights) present;
      let total_w := py_sum ws in
      norm_w ← comprehension (fun c => w ← weight_of cat_weights c;
                                       n ← fdiv w total_w; Ok (c, n)) present;
      weighted ← for_each (fun weighted c =>
                             rels ← dict_get by_cat c;
                             match rels with
                             | [] => Ok weighted
                             | _ :: _ =>
                                 within ← fdiv (Num 1) (py_len rels);
                                 let cat_contrib :=
                                   py_sum (map (fun r => fmul (fsub r (Num 1)) within) rels) in
                                 n ← dict_get norm_w c;
                                 Ok (fadd weighted (fmul n cat_contrib))
                             end) present (Num 0);
      Ok (weighted, norm_w)
  end.

(** [purchasing_power_after(pct_change)]; the argument may be [None]. *)
Definition purchasing_power_after (pct_change : option pyfloat)
  : result (pyfloat * pyfloat) :=
  match pct_change with
  | None => Ok (NaN, NaN)
  | Some p =>
      if isnan p then Ok (NaN, NaN)
      else remaining ← fdiv (Num 1) (fadd (Num 1) p);
           Ok (remaining, fsub (Num 1) remaining)
  end.

(** The top movers of [main]: the percentage changes of [rows_for_calc], and
    the first five entries of the two sorted lists of (item, change). *)
Definition pct_changes (rows_for_calc : list row) : result (list pyfloat) :=
  comprehension (fun '(_, a, b) => r ← fdiv b a; Ok (fsub r (Num 1))) rows_for_calc.

Definition top_movers (rows_for_calc : list row)
  : result (list (string * pyfloat) * list (string * pyfloat)) :=
  pcts ← pct_changes rows_for_calc;
  let pairs := zip (map (fun r : row => r.1.1) rows_for_calc) pcts in
  let top_increases := take 5 (py_sorted_reverse flt snd pairs) in
  let top_decreases := take 5 (py_sorted flt snd pairs) in
  Ok (top_increases, top_decreases).

(* ===================================================================== *)
(** ** The process: environment, network, files, exit status *)
(* ===================================================================== *)

(** A formatted CSV field: text, or a float printed with [:.3f]. *)
Inductive csv_field : Type :=
| Text (s : string)
| Fixed3 (x : pyfloat).

(** What a run does to the outside, in order. *)
Inductive event : Type :=
| HttpGet (series_id : string) (year : Z) (api_key : string)
| Print (text : string) (numbers : list pyfloat)
| Stderr (text : string)
| CsvWrite (dest : string) (table : list (list csv_field))
| SaveFig (file : string).

(** The parsed command line of the richer script. *)
Record arguments : Type := {
  year_a : Z;
  year_b : Z;
  out : string;
  plot : bool;
  weighted : bool;
  weights : option string;
  print_weights : bool
}.

(** [ArgumentParser.parse_args] either returns the arguments, or prints the
    help and exits with status 0, or prints a usage error and exits with
    status 2. *)
Inductive parse_outcome : Type :=
| Parsed (args : arguments)
| HelpRequested
| UsageError (message : string).

(** What a run is given: the command line and the environment, and what the
    libraries it calls answer.  [fred sid year] is the outcome of
    [requests.get], [raise_for_status] and [r.json()["observations"]];
    [json_load path] the outcome of opening and loading a weights file. *)
Record world : Type := {
  argv : list string;
  environ : gmap string string;
  argparse : list string -> parse_outcome;
  py_float : string -> result pyfloat;
  fred : string -> Z -> result (list observation);
  json_load : string -> result (gmap string R)
}.

(** Effectful code: the events so far go in, the events so far and a value or
    an exception come out. *)
Definition proc (A : Type) : Type := list event -> list event * result A.

#[export] Instance proc_ret : MRet proc := fun A a t => (t, Ok a).
#[export] Instance proc_bind : MBind proc := fun A B f m t =>
  match m t with
  | (t', Ok a) => f a t'
  | (t', Raise e) => (t', Raise e)
  end.

Definition emit (e : event) : proc unit := fun t => (t ++ [e], Ok tt).
Definition lift {A : Type} (r : result A) : proc A := fun t => (t, r).
Definition sys_exit {A : Type} (arg : exit_arg) : proc A := lift (Raise (SystemExit arg)).

(** A loop whose body has effects. *)
Fixpoint for_each_proc {A S : Type} (body : S -> A -> proc S) (xs : list A) (acc : S)
  : proc S :=
  match xs with
  | [] => mret acc
  | x :: xs' => acc' ← body acc x; for_each_proc body xs' acc'
  end.

(** The interpreter around a script: what was done and the exit status.  An
    uncaught [SystemExit] with a string prints it to stderr and gives status
    1; any other uncaught exception prints a traceback and gives status 1. *)
Definition run (script : proc unit) : list event * Z :=
  match script [] with
  | (t, Ok _) => (t, 0%Z)
  | (t, Raise (SystemExit (ExitCode status))) => (t, status)
  | (t, Raise (SystemExit (ExitMsg text))) => (t ++ [Stderr text], 1%Z)
  | (t, Raise _) => (t ++ [Stderr "Traceback (most recent call last):"], 1%Z)
  end.

(** [get_key()]: [not key] holds when the variable is unset ([None]) or set
    to the empty string. *)
Definition get_key (w : world) : proc string :=
  match environ w !! "FRED_API_KEY"%string with
  | Some key =>
      if decide (key = ""%string)
      then sys_exit (ExitMsg "Set FRED_API_KEY in your environment (export FRED_API_KEY=...).")
      else mret key
  | None => sys_exit (ExitMsg "Set FRED_API_KEY in your environment (export FRED_API_KEY=...).")
  end.

Definition year_avg (w : world) (series_id : string) (year : Z) (key : string)
  : proc pyfloat :=
  _ ← emit (HttpGet series_id year key);
  observations ← lift (fred w series_id year);
  lift (year_avg_of (py_float w) observations).

(** [f"{a:.3f}" if a==a else ""]. *)
Definition fixed3_or_blank (a : pyfloat) : csv_field :=
  if feq a a then Fixed3 a else Text "".

Definition print_movers (sign : string) (movers : list (string * pyfloat)) : proc unit :=
  for_each_proc (fun _ '(name, pct) => emit (Print (name +:+ sign) [fmul pct (Num 100)]))
    movers tt.

Definition main (w : world) : proc unit :=
  args ← match argparse w (argv w) with
         | Parsed args => mret args
         | HelpRequested => _ ← emit (Print "usage" []); sys_exit (ExitCode 0)
         | UsageError message => _ ← emit (Stderr message); sys_exit (ExitCode 2)
         end;
  key ← get_key w;
  '(rows_for_calc, out_rows) ←
    for_each_proc (fun '(rows_for_calc, out_rows) '(item, (unit_, sid)) =>
        a ← year_avg w sid (year_a args) key;
        b ← year_avg w sid (year_b args) key;
        let out_rows :=
          out_rows ++ [[Text item; Text unit_; fixed3_or_blank a; fixed3_or_blank b;
                        Text ("BLS Average Price via FRED (" +:+ sid
                              +:+ "); annual mean of monthly")]] in
        if feq a a && feq b b && fgt a (Num 0) && fgt b (Num 0)
        then mret (rows_for_calc ++ [(item, a, b)], out_rows)
        else mret (rows_for_calc, out_rows))
      SERIES (([] : list row), ([] : list (list csv_field)));
  _ ← emit (CsvWrite (out args)
              ([Text "item"; Text "unit"; Text ("year_" +:+ pretty (year_a args));
                Text ("year_" +:+ pretty (year_b args)); Text "source"] :: out_rows));
  _ ← emit (Print ("Wrote CSV: " +:+ out args) []);
  '(arith, geo) ← lift (compute_unweighted rows_for_calc);
  _ ← emit (Print "PERSONAL INFLATION" []);
  _ ← emit (Print "Items used" [py_len rows_for_calc; py_len SERIES]);
  _ ← emit (Print "- Unweighted (arithmetic mean of pct changes)" [fmul arith (Num 100)]);
  _ ← emit (Print "- Unweighted (geometric mean of relatives)" [fmul geo (Num 100)]);
  '(pp_geo, loss_geo) ← lift (purchasing_power_after (Some geo));
  _ ← emit (Print "- Implied purchasing power (geometric)" [pp_geo; fmul loss_geo (Num 100)]);
  _ ← (if weighted args then
         user_w ← match weights args with
                  | Some path =>
                      if decide (path = ""%string) then mret ∅ else lift (json_load w path)
                  | None => mret ∅
                  end;
         let cat_w := user_w ∪ DEFAULT_WEIGHTS in
         '(weighted_pct, norm_w) ← lift (compute_weighted rows_for_calc cat_w);
         if feq weighted_pct weighted_pct then
           _ ← emit (Print "WEIGHTED 'NECESSITIES' INDEX" []);
           _ ← emit (Print "- Weighted pct change" [fmul weighted_pct (Num 100)]);
           '(pp_w, loss_w) ← lift (purchasing_power_after (Some weighted_pct));
           _ ← emit (Print "- Implied purchasing power (weighted)" [pp_w; fmul loss_w (Num 100)]);
           if print_weights args && bool_decide (norm_w ≠ []) then
             _ ← emit (Print "Normalized category weights actually used:" []);
             for_each_proc (fun _ '(k, v) => emit (Print k [v])) norm_w tt
           else mret tt
         else emit (Print "Weighted index: not computed (no mapped categories present)." [])
       else mret tt);
  '(top_increases, top_decreases) ← lift (top_movers rows_for_calc);
  _ ← emit (Print "Top item increases:" []);
  _ ← print_movers "  +" top_increases;
  _ ← emit (Print "Top item decreases:" []);
  _ ← print_movers "  " top_decreases;
  if plot args && bool_decide (rows_for_calc ≠ []) then
    let levels_png := "levels_" +:+ pretty (year_a args) +:+ "_vs_"
                      +:+ pretty (year_b args) +:+ ".png" in
    let changes_png := "pct_changes_" +:+ pretty (year_a args) +:+ "_vs_"
                       +:+ pretty (year_b args) +:+ ".png" in
    _ ← lift (pct_changes rows_for_calc);
    _ ← emit (SaveFig levels_png);
    _ ← emit (SaveFig changes_png);
    emit (Print "Saved charts:" [])
  else mret tt.

(* ===================================================================== *)
(** ** personal_inflation.py: the plain script *)
(* ===================================================================== *)

Module personal_inflation.

Definition SERIES : list (string * (string * string)) :=
  [ ("Bread (white, pan)", ("lb", "APU0000702111"));
    ("Chicken breast, boneless", ("lb", "APU0000FF1101"));
    ("Rice, white, long-grain (uncooked)", ("lb", "APU0000701312"));
    ("Coffee, ground (100%)", ("lb", "APU0000717311"));
    ("Potatoes, white", ("lb", "APU0000712112"));
    ("Bananas", ("lb", "APU0000711211"));
    ("Peanut butter, creamy, all sizes", ("lb", "APU0000716141"));
    ("Electricity (residential)", ("cents/kWh", "APU000072610"));
    ("Natural gas (residential), per therm", ("$/therm", "APU000072620"));
    ("Milk (whole)", ("gallon", "APU0000709111"));
    ("Ground beef (100% beef)", ("lb", "APU0000703112"));
    ("Eggs, large", ("dozen", "APU0000708111")) ]%string.

(** [year_avg(series_id, year)]; [KEY] is the module-level credential. *)
Definition year_avg (w : world) (KEY : string) (series_id : string) (year : Z)
  : proc pyfloat :=
  _ ← emit (HttpGet series_id year KEY);
  observations ← lift (fred w series_id year);
  lift (year_avg_of (py_float w) observations).

(** [f"{y:.3f}" if not math.isnan(y) else ""]. *)
Definition fixed3_or_blank (y : pyfloat) : csv_field :=
  if negb (isnan y) then Fixed3 y else Text "".

Definition main (w : world) (KEY : string) : proc unit :=
  _ ← emit (CsvWrite "<stdout>"
              [[Text "item"; Text "unit"; Text "year_2000"; Text "year_2024"; Text "source"]]);
  for_each_proc (fun _ '(item, (unit_, sid)) =>
      y2000 ← year_avg w KEY sid 2000;
      y2024 ← year_avg w KEY sid 2024;
      let src := ("BLS Average Price series via FRED (" +:+ sid
                  +:+ "); annual mean of monthly")%string in
      emit (CsvWrite "<stdout>"
              [[Text item; Text unit_; fixed3_or_blank y2000; fixed3_or_blank y2024;
                Text src]]))
    SERIES tt.

(** The script from its first line: the credential check at import time,
    then [main()]. *)
Definition script (w : world) : proc unit :=
  KEY ← match environ w !! "FRED_API_KEY"%string with
        | Some KEY =>
            if decide (KEY = ""%string)
            then sys_exit (ExitMsg "Set FRED_API_KEY in your environment")
            else mret KEY
        | None => sys_exit (ExitMsg "Set FRED_API_KEY in your environment")
        end;
  main w KEY.

End personal_inflation.

Definition is_http_get (e : event) : bool :=
  match e with
  | HttpGet _ _ _ => true
  | _ => false
  end.

(** The network calls of a trace. *)
Definition http_calls (t : list event) : list event := List.filter is_http_get t.

(* ===================================================================== *)
(** ** The weighted index on binary64 floats *)
(* ===================================================================== *)

(** [compute_weighted] and [purchasing_power_after] use the four arithmetic
    operations only, so they can also be read on IEEE binary64 floats with
    rounding to nearest, which is what Python floats are.  This module is
    that reading; it serves to mark where exact arithmetic and the floats
    part. *)
Module Binary64.

Definition truthy (x : float) : bool := negb (PrimFloat.eqb x 0%float).

Definition usable (a b : float) : bool :=
  truthy a && truthy b && PrimFloat.ltb 0%float a && PrimFloat.ltb 0%float b.

Definition fdiv (x y : float) : result float :=
  if PrimFloat.eqb y 0%float then Raise ZeroDivisionError else Ok (PrimFloat.div x y).

(** [sum(xs)], adding from left to right.  (CPython from 3.12 on also
    compensates the rounding errors of a float sum; with one summand there
    is none.) *)
Definition py_sum (xs : list float) : float := fold_left PrimFloat.add xs 0%float.

Definition py_len {A : Type} (xs : list A) : float :=
  PrimFloat.of_uint63 (Uint63.of_Z (Z.of_nat (length xs))).

Definition weight_of (cat_weights : gmap string float) (c : string) : result float :=
  match cat_weights !! c with
  | Some w => Ok w
  | None => Raise (KeyError c)
  end.

#[local] Set Warnings "-inexact-float".
Definition DEFAULT_WEIGHTS : gmap string float :=
  {[ "food_at_home"%string := 0.45%float;
     "utilities_electric"%string := 0.20%float;
     "utilities_gas"%string := 0.15%float;
     "transport_fuel"%string := 0.20%float ]}.
#[local] Set Warnings "+inexact-float".

Definition compute_weighted (rows : list (string * float * float))
    (cat_weights : gmap string float) : result (float * pydict float) :=
  by_cat ← for_each (fun by_cat '(item, a, b) =>
                       let cat := categorize_item item in
                       if decide (cat_weights !! cat = None) then Ok by_cat
                       else if usable a b then
                              r ← fdiv b a; Ok (setdefault_append by_cat cat r)
                            else Ok by_cat) rows [];
  match by_cat with
  | [] => Ok (nan, [])
  | _ :: _ =>
      let present := dict_keys by_cat in
      ws ← comprehension (weight_of cat_weights) present;
      let total_w := py_sum ws in
      norm_w ← comprehension (fun c => w ← weight_of cat_weights c;
                                       n ← fdiv w total_w; Ok (c, n)) present;
      weighted ← for_each (fun weighted c =>
                             rels ← dict_get by_cat c;
                             match rels with
                             | [] => Ok weighted
                             | _ :: _ =>
                                 within ← fdiv 1%float (py_len rels);
                                 let cat_contrib :=
                                   py_sum (map (fun r => PrimFloat.mul
                                                           (PrimFloat.sub r 1%float) within)
                                             rels) in
                                 n ← dict_get norm_w c;
                                 Ok (PrimFloat.add weighted (PrimFloat.mul n cat_contrib))
                             end) present 0%float;
      Ok (weighted, norm_w)
  end.

Definition purchasing_power_after (pct_change : option float) : result (float * float) :=
  match pct_change with
  | None => Ok (nan, nan)
  | Some p =>
      if PrimFloat.is_nan p then Ok (nan, nan)
      else remaining ← fdiv 1%float (PrimFloat.add 1%float p);
           Ok (remaining, PrimFloat.sub 1%float remaining)
  end.

End Binary64.

(* ===================================================================== *)
(** ** Vocabulary of the specification *)
(* ===================================================================== *)

(** Sum and arithmetic mean of a list of numbers. *)
Definition Rsum (l : list R) : R := foldr Rplus 0 l.
Definition mean (l : list R) : R := Rsum l / INR (length l).

(** A row of two numbers. *)
Definition num_row (r : string * R * R) : row := (r.1.1, Num r.1.2, Num r.2).

(** The relative [b / a] of a usable row: both values are numbers (present)
    and strictly positive. *)
Definition relative (r : row) : option R :=
  match r with
  | (_, Num a, Num b) =>
      if Rlt_dec 0 a then if Rlt_dec 0 b then Some (b / a) else None else None
  | _ => None
  end.

Arguments relative : simpl never.

(** The relatives of the usable rows, in row order. *)
Definition relatives (rows : list row) : list R := omap relative rows.

(** A usable row: both values are numbers and strictly positive. *)
Definition usable_row (r : row) : Prop :=
  exists a b : R, r.1.2 = Num a /\ r.2 = Num b /\ 0 < a /\ 0 < b.

(** The elements of a list in the order of their first occurrence. *)
Fixpoint distinct (l : list string) : list string :=
  match l with
  | [] => []
  | x :: l' => x :: filter (fun y => y <> x) (distinct l')
  end.

(** A usable row whose category has a weight contributes its relative to
    that category. *)
Definition entry (cat_weights : gmap string R) (r : row) : option (string * R) :=
  match cat_weights !! categorize_item r.1.1, relative r with
  | Some _, Some x => Some (categorize_item r.1.1, x)
  | _, _ => None
  end.

Definition entries (cat_weights : gmap string R) (rows : list row) : list (string * R) :=
  omap (entry cat_weights) rows.

(** The categories present in the data: those with a weight and at least one
    usable member, in the order they first occur. *)
Definition present (cat_weights : gmap string R) (rows : list row) : list string :=
  distinct (map fst (entries cat_weights rows)).

(** The relatives of the usable members of category [c], in row order. *)
Definition members (c : string) (es : list (string * R)) : list R :=
  map snd (filter (fun e => e.1 = c) es).

(** The weight of a category, 0 when the mapping has none. *)
Definition weight (cat_weights : gmap string R) (c : string) : R :=
  default 0 (cat_weights !! c).

(** The sum of the weights of the present categories: the normalization
    denominator. *)
Definition total_weight (cat_weights : gmap string R) (rows : list row) : R :=
  Rsum (map (weight cat_weights) (present cat_weights rows)).

(** The weighted percentage change the specification describes: the sum over
    the present categories of the normalized weight times the mean
    percentage change of the category's usable members. *)
Definition weighted_change (cat_weights : gmap string R) (rows : list row) : R :=
  Rsum (map (fun c => weight cat_weights c / total_weight cat_weights rows
                      * mean (map (fun r => r - 1) (members c (entries cat_weights rows))))
            (present cat_weights rows)).

(** The normalized weights the specification describes. *)
Definition normalized_weights (cat_weights : gmap string R) (rows : list row)
  : list (string * R) :=
  map (fun c => (c, weight cat_weights c / total_weight cat_weights rows))
      (present cat_weights rows).




(** The yearly average of the usable values: their mean, or not-a-number
    when there is none. *)
Definition mean_or_nan (xs : list R) : pyfloat :=
  match xs with
  | [] => NaN
  | _ :: _ => Num (mean xs)
  end.

(** An observation counts when its value is neither of the two
    missing-value markers. *)
Definition has_value (o : observation) : Prop :=
  value o <> ""%string /\ value o <> "."%string.

#[export] Instance has_value_dec (o : observation) : Decision (has_value o).
Proof. unfold has_value. apply _. Defined.

(** Equality and order of real numbers as decisions. *)
#[export] Instance R_eq_dec : EqDecision R := Req_dec_T.

Definition Rltb (x y : R) : bool := if Rlt_dec x y then true else false.

(** [x] may stand before [y] in a list sorted by [key]: the key of [y] is
    not smaller than that of [x]. *)
Definition key_before {A K : Type} (lt : K -> K -> bool) (key : A -> K) (x y : A) : Prop :=
  lt (key y) (key x) = false.

(** The (item, percentage change) pairs of rows of numbers, in row order. *)
Definition changes (rows : list (string * R * R)) : list (string * R) :=
  map (fun r => (r.1.1, r.2 / r.1.2 - 1)) rows.

Definition num_pair (p : string * R) : string * pyfloat := (p.1, Num p.2).

(** Effectful code that makes no network call, whatever its outcome. *)
Definition quiet {A : Type} (p : proc A) : Prop :=
  forall t, http_calls (p t).1 = http_calls t.

(** The requests of a run over a catalog: for each item its series at year A,
    then at year B. *)
Definition catalog_calls (catalog : list (string * (string * string)))
    (year_a year_b : Z) (key : string) : list event :=
  flat_map (fun s => [HttpGet s.2.2 year_a key; HttpGet s.2.2 year_b key]) catalog.

(** *** The charts *)

(** [plot_pct_changes(items, pct_changes, outfile)]: the labels it hands to
    [plt.xticks] and the bar heights it hands to [plt.bar].  [zip] stops at
    the shorter of the two lists. *)
Definition plot_pct_changes (items : list string) (pct_changes : list pyfloat)
  : list string * list pyfloat :=
  let pairs := py_sorted_reverse flt snd (zip items pct_changes) in
  let items_sorted := map fst pairs in
  let pct_sorted := map (fun p => fmul p.2 (Num 100)) pairs in
  (items_sorted, pct_sorted).

(** *** Runs of the scripts *)

(** What [year_avg] returns or raises for a series and a year, the request
    apart. *)
Definition year_avg_outcome (w : world) (series_id : string) (year : Z) : result pyfloat :=
  observations ← fred w series_id year; year_avg_of (py_float w) observations.

(** The yearly average where there is one. *)
Definition average (w : world) (series_id : string) (year : Z) : pyfloat :=
  match year_avg_outcome w series_id year with
  | Ok x => x
  | Raise _ => NaN
  end.

(** The (series, year) pairs a run over a catalog asks for, in order. *)
Definition requests (catalog : list (string * (string * string))) (year_a year_b : Z)
  : list (string * Z) :=
  flat_map (fun s => [(s.2.2, year_a); (s.2.2, year_b)]) catalog.

Definition request_event (key : string) (q : string * Z) : event := HttpGet q.1 q.2 key.





(** What the plain script does for one catalog entry when both fetches
    succeed: two requests, then the line on stdout. *)
Definition plain_item_events (w : world) (key : string) (s : string * (string * string))
  : list event :=
  [HttpGet s.2.2 2000 key; HttpGet s.2.2 2024 key;
   CsvWrite "<stdout>"
     [[Text s.1; Text s.2.1; personal_inflation.fixed3_or_blank (average w s.2.2 2000);
       personal_inflation.fixed3_or_blank (average w s.2.2 2024);
       Text ("BLS Average Price series via FRED (" +:+ s.2.2
             +:+ "); annual mean of monthly")]]].

Definition plain_header : event :=
  CsvWrite "<stdout>"
    [[Text "item"; Text "unit"; Text "year_2000"; Text "year_2024"; Text "source"]].





(** *** Concrete worlds, for runs on explicit inputs *)

(** A decimal digit. *)
Definition digit_of (c : ascii) : option Z :=
  let n := nat_of_ascii c in
  if (48 <=? n)%nat && (n <=? 57)%nat then Some (Z.of_nat (n - 48)) else None.

(** Reads digits: the number read so far and the count of digits. *)
Fixpoint read_digits (s : string) (acc : Z) (count : nat) : option (Z * nat) :=
  match s with
  | EmptyString => Some (acc, count)
  | String c s' =>
      match digit_of c with
      | Some d => read_digits s' (10 * acc + d)%Z (S count)
      | None => None
      end
  end.

(** [float] on plain decimal numerals [digits.digits]; other text is taken
    to be no numeral. *)
Fixpoint float_decimal_from (s : string) (acc : Z) : result pyfloat :=
  match s with
  | EmptyString => Ok (Num (IZR acc))
  | String c s' =>
      if decide (c = "."%char) then
        match read_digits s' acc 0 with
        | Some (mantissa, count) => Ok (Num (IZR mantissa / IZR (10 ^ Z.of_nat count)))
        | None => Raise ValueError
        end
      else match digit_of c with
           | Some d => float_decimal_from s' (10 * acc + d)%Z
           | None => Raise ValueError
           end
  end.

Definition float_decimal (s : string) : result pyfloat :=
  match s with
  | EmptyString => Raise ValueError
  | String _ _ => float_decimal_from s 0
  end.

Definition default_arguments : arguments :=
  {| year_a := 2000; year_b := 2024; out := "fred_basket.csv"; plot := false;
     weighted := false; weights := None; print_weights := false |}.

(** [parse_args] on command lines made of the flags [--plot], [--weighted],
    [--print-weights] and [-h]/[--help], spelled in full; any other token
    is reported as a usage error. *)
Fixpoint parse_flags (tokens : list string) (args : arguments) : parse_outcome :=
  match tokens with
  | [] => Parsed args
  | token :: rest =>
      if decide (token = "-h"%string \/ token = "--help"%string) then HelpRequested
      else if decide (token = "--plot"%string) then
        parse_flags rest
          {| year_a := year_a args; year_b := year_b args; out := out args; plot := true;
             weighted := weighted args; weights := weights args;
             print_weights := print_weights args |}
      else if decide (token = "--weighted"%string) then
        parse_flags rest
          {| year_a := year_a args; year_b := year_b args; out := out args;
             plot := plot args; weighted := true; weights := weights args;
             print_weights := print_weights args |}
      else if decide (token = "--print-weights"%string) then
        parse_flags rest
          {| year_a := year_a args; year_b := year_b args; out := out args;
             plot := plot args; weighted := weighted args; weights := weights args;
             print_weights := true |}
      else UsageError ("unrecognized arguments: " +:+ token)
  end.

(** A world with the given command line and environment, in which every
    series has the three monthly values 1.5, missing, 2.5 and no weights
    file exists. *)
Definition sample_world (command_line : list string) (env : gmap string string) : world :=
  {| argv := command_line;
     environ := env;
     argparse := fun tokens => parse_flags tokens default_arguments;
     py_float := float_decimal;
     fred := fun _ _ => Ok [ {| value := "1.5" |}; {| value := "." |}; {| value := "2.5" |} ];
     json_load := fun path => Raise (IOError path) |}.

(* ===================================================================== *)
(** ** Float arithmetic on numbers *)
(* ===================================================================== *)

Lemma fdiv_num (a b : R) : b <> 0 -> fdiv (Num a) (Num b) = Ok (Num (a / b)).
Proof. intros Hb. unfold fdiv. destruct (Req_dec_T b 0); [contradiction | reflexivity]. Qed.

Lemma fdiv_zero (x : pyfloat) : fdiv x (Num 0) = Raise ZeroDivisionError.
Proof. unfold fdiv. destruct (Req_dec_T 0 0); [reflexivity | contradiction]. Qed.

Lemma math_log_num (a : R) : 0 < a -> math_log (Num a) = Ok (Num (ln a)).
Proof. intros Ha. unfold math_log. destruct (Rlt_dec 0 a); [reflexivity | contradiction]. Qed.

Lemma fgt_num (a b : R) : fgt (Num a) (Num b) = true <-> b < a.
Proof. unfold fgt. destruct (Rlt_dec b a); split; intros; congruence || assumption. Qed.

Lemma truthy_pos (a : R) : 0 < a -> truthy (Num a) = true.
Proof. intros Ha. unfold truthy. destruct (Req_dec_T a 0); [lra | reflexivity]. Qed.

Lemma usable_num (a b : R) : usable (Num a) (Num b) = true <-> 0 < a /\ 0 < b.
Proof.
  unfold usable. rewrite !andb_true_iff, !fgt_num. split.
  - tauto.
  - intros [Ha Hb]. rewrite !truthy_pos by assumption. tauto.
Qed.

Lemma usable_relative (name : string) (a b : pyfloat) :
  match relative (name, a, b) with
  | Some r => usable a b = true /\ fdiv b a = Ok (Num r)
  | None => usable a b = false
  end.
Proof.
  destruct a as [a|], b as [b|]; unfold relative.
  - destruct (Rlt_dec 0 a) as [Ha|Ha]; [destruct (Rlt_dec 0 b) as [Hb|Hb] |].
    + split; [apply usable_num; done | apply fdiv_num; lra].
    + apply not_true_is_false. rewrite usable_num. tauto.
    + apply not_true_is_false. rewrite usable_num. tauto.
  - unfold usable. simpl. apply andb_false_r.
  - unfold usable. simpl. rewrite andb_false_r. reflexivity.
  - unfold usable. simpl. reflexivity.
Qed.

Lemma fold_fadd_num (l : list R) (a : R) :
  fold_left fadd (map Num l) (Num a) = Num (a + Rsum l).
Proof.
  revert a. induction l as [|x l IH]; intros a; simpl.
  - f_equal. lra.
  - rewrite IH. f_equal. lra.
Qed.

Lemma py_sum_num (l : list R) : py_sum (map Num l) = Num (Rsum l).
Proof. unfold py_sum. rewrite fold_fadd_num. f_equal. lra. Qed.

Lemma INR_length_pos {A : Type} (l : list A) : l <> [] -> 0 < INR (length l).
Proof.
  destruct l as [|x l]; [congruence | intros _].
  apply lt_0_INR. simpl. lia.
Qed.

Lemma comprehension_ok {A B : Type} (f : A -> result B) (g : A -> B) (xs : list A) :
  (forall x, In x xs -> f x = Ok (g x)) -> comprehension f xs = Ok (map g xs).
Proof.
  induction xs as [|x xs IH]; intros Hf; simpl; [reflexivity |].
  rewrite Hf by (left; reflexivity). simpl.
  rewrite IH by (intros y Hy; apply Hf; right; exact Hy). reflexivity.
Qed.

(* ===================================================================== *)
(** ** compute_unweighted *)
(* ===================================================================== *)

Lemma relative_pos (r : row) (x : R) : relative r = Some x -> 0 < x.
Proof.
  destruct r as [[name [a|]] [b|]]; unfold relative; try discriminate.
  destruct (Rlt_dec 0 a); [|discriminate]. destruct (Rlt_dec 0 b); [|discriminate].
  intros [= <-]. apply Rdiv_lt_0_compat; assumption.
Qed.

Lemma relatives_pos (rows : list row) : Forall (fun x => 0 < x) (relatives rows).
Proof.
  unfold relatives. induction rows as [|r rows IH]; simpl; [constructor |].
  destruct (relative r) as [x|] eqn:Hr; simpl; [|exact IH].
  constructor; [eapply relative_pos; eassumption | exact IH].
Qed.


(** The first loop of [compute_unweighted] appends the relatives of the
    usable rows and never raises. *)
Lemma collect_relatives (rows : list row) (acc : list pyfloat) :
  for_each (fun rels '(_, a, b) =>
              if usable a b then r ← fdiv b a; Ok (rels ++ [r]) else Ok rels) rows acc
  = Ok (acc ++ map Num (relatives rows)).
Proof.
  revert acc. unfold relatives.
  induction rows as [|[[name a] b] rows IH]; intros acc; simpl.
  - rewrite app_nil_r. reflexivity.
  - pose proof (usable_relative name a b) as H.
    destruct (relative (name, a, b)) as [x|].
    + destruct H as [-> ->]. simpl. rewrite IH. simpl. rewrite <- app_assoc. reflexivity.
    + rewrite H. simpl. apply IH.
Qed.

(** [compute_unweighted] is total, and its two results are determined by the
    relatives of the usable rows. *)
Lemma sum_changes_num (l : list R) :
  py_sum (map (fun r => fsub r (Num 1)) (map Num l)) = Num (Rsum (map (fun r => r - 1) l)).
Proof. rewrite map_map, <- py_sum_num, map_map. reflexivity. Qed.

Lemma logs_num (l : list R) :
  Forall (fun x => 0 < x) l -> comprehension math_log (map Num l) = Ok (map Num (map ln l)).
Proof.
  intros Hpos. rewrite (map_map ln Num), <- (map_map Num (fun p => match p with
                                                        | Num a => Num (ln a)
                                                        | NaN => NaN
                                                        end)).
  apply comprehension_ok. intros p Hp. apply in_map_iff in Hp as (a & <- & Ha).
  apply math_log_num. rewrite Forall_forall in Hpos. apply Hpos, list_elem_of_In, Ha.
Qed.

(** The statistics of a non-empty list of positive relatives. *)
Lemma unweighted_of_relatives (l : list R) :
  l <> [] -> Forall (fun x => 0 < x) l ->
  (arith ← fdiv (py_sum (map (fun r => fsub r (Num 1)) (map Num l))) (py_len (map Num l));
   logs ← comprehension math_log (map Num l);
   mean_log ← fdiv (py_sum logs) (py_len (map Num l));
   Ok (arith, fsub (math_exp mean_log) (Num 1)))
  = Ok (Num (mean (map (fun r => r - 1) l)), Num (exp (mean (map ln l)) - 1)).
Proof.
  intros Hne Hpos.
  assert (Hlen : INR (length l) <> 0) by (apply Rgt_not_eq, INR_length_pos, Hne).
  rewrite sum_changes_num, logs_num by exact Hpos.
  unfold py_len. rewrite length_map, fdiv_num by exact Hlen.
  cbn [mbind result_bind]. rewrite py_sum_num, fdiv_num by exact Hlen.
  cbn [mbind result_bind math_exp fsub]. unfold mean. rewrite !length_map. reflexivity.
Qed.

(** [compute_unweighted] is total, and its two results are determined by the
    relatives of the usable rows. *)
Lemma compute_unweighted_total (rows : list row) :
  compute_unweighted rows =
  Ok (match relatives rows with
      | [] => (NaN, NaN)
      | rels => (Num (mean (map (fun r => r - 1) rels)),
                 Num (exp (mean (map ln rels)) - 1))
      end).
Proof.
  unfold compute_unweighted. rewrite collect_relatives.
  cbn [mbind result_bind app].
  pose proof (relatives_pos rows) as Hpos.
  destruct (relatives rows) as [|x rels]; [reflexivity |].
  apply (unweighted_of_relatives (x :: rels)); [discriminate | exact Hpos].
Qed.



(* ===================================================================== *)
(** ** compute_weighted: the grouping loop *)
(* ===================================================================== *)

Lemma distinct_elem (l : list string) (x : string) : x ∈ distinct l <-> x ∈ l.
Proof.
  induction l as [|y l IH]; simpl; [reflexivity |].
  rewrite !elem_of_cons, list_elem_of_filter, IH.
  destruct (decide (x = y)); tauto.
Qed.

Lemma distinct_NoDup (l : list string) : NoDup (distinct l).
Proof.
  induction l as [|y l IH]; simpl; constructor.
  - rewrite list_elem_of_filter. tauto.
  - apply NoDup_filter, IH.
Qed.

Lemma distinct_snoc (l : list string) (c : string) :
  distinct (l ++ [c]) = distinct l ++ (if decide (c ∈ l) then [] else [c]).
Proof.
  induction l as [|y l IH]; simpl; [reflexivity |].
  rewrite IH, filter_app. f_equal. f_equal.
  destruct (decide (c ∈ l)) as [Hin|Hin]; destruct (decide (c ∈ y :: l)) as [Hin'|Hin'].
  - reflexivity.
  - exfalso. apply Hin'. right. exact Hin.
  - apply elem_of_cons in Hin' as [->|Hin']; [|contradiction].
    rewrite filter_cons_False by tauto. reflexivity.
  - rewrite filter_cons_True; [reflexivity |].
    intros ->. apply Hin'. left.
Qed.

Lemma members_snoc (k c : string) (x : R) (es : list (string * R)) :
  members k (es ++ [(c, x)]) = members k es ++ (if decide (c = k) then [x] else []).
Proof.
  unfold members. rewrite filter_app, map_app. f_equal.
  destruct (decide (c = k)) as [->|Hne].
  - rewrite filter_cons_True by reflexivity. reflexivity.
  - rewrite filter_cons_False by exact Hne. reflexivity.
Qed.

Lemma members_absent (c : string) (es : list (string * R)) :
  c ∉ map fst es -> members c es = [].
Proof.
  intros Hc. unfold members. induction es as [|[k x] es IH]; [reflexivity |].
  simpl in Hc. rewrite not_elem_of_cons in Hc. destruct Hc as [Hne Hc].
  rewrite filter_cons_False by (simpl; congruence). apply IH, Hc.
Qed.

Lemma members_present (c : string) (es : list (string * R)) :
  c ∈ map fst es -> members c es <> [].
Proof.
  unfold members. induction es as [|[k x] es IH]; simpl; intros Hc.
  - inversion Hc.
  - destruct (decide (k = c)) as [->|Hne].
    + rewrite filter_cons_True by reflexivity. discriminate.
    + rewrite filter_cons_False by exact Hne. apply IH.
      apply elem_of_cons in Hc as [Hc|Hc]; [congruence | exact Hc].
Qed.

(** [setdefault(...).append] on a dict that is given by its keys and a
    function from keys to lists. *)
Lemma setdefault_append_tabulated {V : Type} (G : string -> list V) (ks : list string)
    (c : string) (x : V) :
  NoDup ks ->
  setdefault_append (map (fun k => (k, G k)) ks) c x =
  if decide (c ∈ ks)
  then map (fun k => (k, if decide (k = c) then G k ++ [x] else G k)) ks
  else map (fun k => (k, G k)) ks ++ [(c, [x])].
Proof.
  induction 1 as [|k ks Hk Hnd IH]; simpl; [reflexivity |].
  destruct (decide (k = c)) as [->|Hne].
  - destruct (decide (c ∈ c :: ks)) as [_|Hin]; [|exfalso; apply Hin; left].
    f_equal. apply map_ext_in. intros k Hin.
    destruct (decide (k = c)) as [->|_]; [|reflexivity].
    exfalso. apply Hk, list_elem_of_In, Hin.
  - rewrite IH. destruct (decide (c ∈ ks)) as [Hin|Hin];
      destruct (decide (c ∈ k :: ks)) as [Hin'|Hin'].
    + reflexivity.
    + exfalso. apply Hin'. right. exact Hin.
    + exfalso. apply elem_of_cons in Hin' as [?|?]; congruence.
    + reflexivity.
Qed.

(** The dict the grouping loop builds from the entries: its keys are the
    categories in order of first occurrence, and each key holds the
    relatives of its members in row order. *)
Lemma grouping (es : list (string * R)) :
  fold_left (fun d e => setdefault_append d e.1 (Num e.2)) es []
  = map (fun c => (c, map Num (members c es))) (distinct (map fst es)).
Proof.
  induction es as [|[c x] es IH] using rev_ind; [reflexivity |].
  rewrite fold_left_app, IH. cbn [fold_left fst snd].
  rewrite (setdefault_append_tabulated (fun k => map Num (members k es)))
    by apply distinct_NoDup.
  rewrite (map_app fst). change (map fst [(c, x)]) with [c]. rewrite distinct_snoc.
  destruct (decide (c ∈ distinct (map fst es))) as [Hin|Hin].
  - rewrite decide_True by (apply distinct_elem, Hin).
    rewrite app_nil_r. apply map_ext. intros k.
    rewrite members_snoc. destruct (decide (k = c)) as [->|Hne].
    + rewrite decide_True by reflexivity. rewrite map_app. reflexivity.
    + rewrite decide_False by congruence. rewrite app_nil_r. reflexivity.
  - rewrite distinct_elem in Hin. rewrite decide_False by exact Hin.
    rewrite map_app. simpl. f_equal.
    + apply map_ext_in. intros k Hk. rewrite members_snoc.
      rewrite decide_False; [rewrite app_nil_r; reflexivity |].
      intros ->. apply Hin. apply distinct_elem, list_elem_of_In, Hk.
    + rewrite members_snoc, members_absent by exact Hin.
      rewrite decide_True by reflexivity. reflexivity.
Qed.

(** The first loop of [compute_weighted] never raises; it files the entries
    one after the other. *)
Lemma collect_by_category (cat_weights : gmap string R) (rows : list row)
    (acc : pydict (list pyfloat)) :
  for_each (fun by_cat '(item, a, b) =>
              let cat := categorize_item item in
              if decide (cat_weights !! cat = None) then Ok by_cat
              else if usable a b then
                     r ← fdiv b a; Ok (setdefault_append by_cat cat r)
                   else Ok by_cat) rows acc
  = Ok (fold_left (fun d e => setdefault_append d e.1 (Num e.2))
          (entries cat_weights rows) acc).
Proof.
  revert acc. unfold entries.
  induction rows as [|[[name a] b] rows IH]; intros acc; simpl; [reflexivity |].
  unfold entry at 1. simpl.
  pose proof (usable_relative name a b) as H.
  destruct (cat_weights !! categorize_item name) as [w|] eqn:Hw.
  - rewrite decide_False by discriminate.
    destruct (relative (name, a, b)) as [x|].
    + destruct H as [-> ->]. simpl. apply IH.
    + rewrite H. simpl. apply IH.
  - rewrite decide_True by reflexivity. simpl. apply IH.
Qed.

(* ===================================================================== *)
(** ** compute_weighted: normalization and the weighted sum *)
(* ===================================================================== *)

Lemma dict_get_tabulated {V : Type} (G : string -> V) (ks : list string) (c : string) :
  c ∈ ks -> dict_get (map (fun k => (k, G k)) ks) c = Ok (G c).
Proof.
  induction ks as [|k ks IH]; intros Hc; [inversion Hc |].
  simpl. destruct (decide (k = c)) as [->|Hne]; [reflexivity |].
  apply IH. apply elem_of_cons in Hc as [?|?]; [congruence | assumption].
Qed.

Lemma entry_weighted (cat_weights : gmap string R) (rows : list row) (c : string) :
  c ∈ map fst (entries cat_weights rows) -> is_Some (cat_weights !! c).
Proof.
  unfold entries. induction rows as [|r rows IH]; simpl; [inversion 1 |].
  unfold entry at 1.
  destruct (cat_weights !! categorize_item r.1.1) as [w|] eqn:Hw; [|exact IH].
  destruct (relative r) as [x|]; [|exact IH].
  simpl. intros [->|Hc]%elem_of_cons; [rewrite Hw; eauto | apply IH, Hc].
Qed.

Lemma present_weighted (cat_weights : gmap string R) (rows : list row) (c : string) :
  c ∈ present cat_weights rows ->
  weight_of cat_weights c = Ok (Num (weight cat_weights c)).
Proof.
  unfold present. rewrite distinct_elem. intros [w Hw]%entry_weighted.
  unfold weight_of, weight. rewrite Hw. reflexivity.
Qed.

Lemma comprehension_raise_head {A B : Type} (f : A -> result B) (x : A) (xs : list A)
    (e : exn) :
  f x = Raise e -> comprehension f (x :: xs) = Raise e.
Proof. intros H. simpl. rewrite H. reflexivity. Qed.

Lemma for_each_sum {A : Type} (body : pyfloat -> A -> result pyfloat) (h : A -> R)
    (xs : list A) (a : R) :
  (forall x a', In x xs -> body (Num a') x = Ok (Num (a' + h x))) ->
  for_each body xs (Num a) = Ok (Num (a + Rsum (map h xs))).
Proof.
  revert a. induction xs as [|x xs IH]; intros a Hb; simpl.
  - do 2 f_equal. lra.
  - rewrite Hb by (left; reflexivity). simpl.
    rewrite IH by (intros y a' Hy; apply Hb; right; exact Hy).
    do 2 f_equal. lra.
Qed.

Lemma Rsum_scale (k : R) (l : list R) : Rsum (map (fun r => r * k) l) = Rsum l * k.
Proof. induction l as [|x l IH]; simpl; [lra | rewrite IH; lra]. Qed.


(** The contribution of one category with members [ms]: equal weights
    [1 / len] inside the category give the mean percentage change. *)
Lemma category_contribution (ms : list R) :
  ms <> [] ->
  (within ← fdiv (Num 1) (py_len (map Num ms));
   Ok (py_sum (map (fun r => fmul (fsub r (Num 1)) within) (map Num ms))))
  = Ok (Num (mean (map (fun r => r - 1) ms))).
Proof.
  intros Hne.
  assert (Hlen : INR (length ms) <> 0) by (apply Rgt_not_eq, INR_length_pos, Hne).
  unfold py_len. rewrite length_map, fdiv_num by exact Hlen.
  cbn [mbind result_bind]. rewrite map_map. cbn [fsub fmul].
  rewrite <- (map_map (fun r => (r - 1) * (1 / INR (length ms))) Num), py_sum_num.
  rewrite <- (map_map (fun r => r - 1) (fun r => r * (1 / INR (length ms)))), Rsum_scale.
  unfold mean. rewrite length_map. do 2 f_equal. lra.
Qed.

Lemma match_nonempty {A B : Type} (l : list A) (a b : B) :
  l <> [] -> match l with [] => a | _ :: _ => b end = b.
Proof. destruct l; [congruence | reflexivity]. Qed.

(** [compute_weighted] on every input: not-a-number when no category is
    present, [ZeroDivisionError] when the weights of the present categories
    sum to zero, and otherwise the weighted change and the normalized
    weights of the specification. *)
Lemma compute_weighted_total (rows : list row) (cat_weights : gmap string R) :
  compute_weighted rows cat_weights =
  match present cat_weights rows with
  | [] => Ok (NaN, [])
  | _ :: _ =>
      if Req_dec_T (total_weight cat_weights rows) 0 then Raise ZeroDivisionError
      else Ok (Num (weighted_change cat_weights rows),
               map (fun p => (p.1, Num p.2)) (normalized_weights cat_weights rows))
  end.
Proof.
  unfold compute_weighted. rewrite collect_by_category, grouping.
  cbn [mbind result_bind].
  unfold weighted_change, normalized_weights, total_weight.
  fold (present cat_weights rows).
  set (es := entries cat_weights rows).
  assert (Hmem : forall c, c ∈ present cat_weights rows -> members c es <> []).
  { intros c Hc. apply members_present, distinct_elem, Hc. }
  assert (Hw := present_weighted cat_weights rows).
  set (ps := present cat_weights rows) in *.
  destruct (decide (ps = [])) as [->|Hne]; [reflexivity |].
  rewrite !match_nonempty by (try exact Hne; destruct ps; [congruence | discriminate]).
  unfold dict_keys. rewrite map_map. cbn [fst]. rewrite map_id.
  rewrite (comprehension_ok _ (fun c => Num (weight cat_weights c)))
    by (intros c Hc; apply Hw, list_elem_of_In, Hc).
  cbn [mbind result_bind].
  rewrite <- (map_map (weight cat_weights) Num), py_sum_num.
  set (total := Rsum (map (weight cat_weights) ps)).
  destruct (Req_dec_T total 0) as [Hz|Hnz].
  - destruct ps as [|p ps']; [congruence |].
    rewrite (comprehension_raise_head _ p ps' ZeroDivisionError); [reflexivity |].
    rewrite Hw by left. cbn [mbind result_bind]. rewrite Hz, fdiv_zero. reflexivity.
  - rewrite (comprehension_ok _ (fun c => (c, Num (weight cat_weights c / total)))).
    2:{ intros c Hc. rewrite Hw by (apply list_elem_of_In, Hc).
        cbn [mbind result_bind]. rewrite fdiv_num by exact Hnz. reflexivity. }
    cbn [mbind result_bind].
    rewrite (for_each_sum _ (fun c => weight cat_weights c / total
                                      * mean (map (fun r => r - 1) (members c es)))).
    + cbn [mbind result_bind]. rewrite map_map. cbn [fst snd].
      rewrite (match_nonempty ps) by exact Hne. rewrite Rplus_0_l. reflexivity.
    + intros c a' Hc%list_elem_of_In.
      rewrite (dict_get_tabulated (fun c => map Num (members c es))) by exact Hc.
      cbn [mbind result_bind].
      rewrite match_nonempty
        by (specialize (Hmem c Hc); destruct (members c es); [congruence | discriminate]).
      pose proof (category_contribution (members c es) (Hmem c Hc)) as Hcc.
      destruct (fdiv (Num 1) (py_len (map Num (members c es)))) as [within|e];
        cbn [mbind result_bind] in Hcc |- *; [|discriminate].
      injection Hcc as ->.
      rewrite (dict_get_tabulated (fun c => Num (weight cat_weights c / total))) by exact Hc.
      reflexivity.
Qed.

(* ===================================================================== *)
(** ** Usable rows and present categories *)
(* ===================================================================== *)

Lemma relative_usable (r : row) : is_Some (relative r) <-> usable_row r.
Proof.
  destruct r as [[name a] b]. unfold usable_row, relative. simpl. split.
  - destruct a as [a|], b as [b|]; try (intros [x Hx]; discriminate).
    destruct (Rlt_dec 0 a); [|intros [x Hx]; discriminate].
    destruct (Rlt_dec 0 b); [|intros [x Hx]; discriminate].
    intros _. exists a, b. auto.
  - intros (a' & b' & -> & -> & Ha & Hb).
    destruct (Rlt_dec 0 a'); [|contradiction]. destruct (Rlt_dec 0 b'); [|contradiction].
    eauto.
Qed.

Lemma relatives_nil (rows : list row) :
  relatives rows = [] <-> Forall (fun r => ~ usable_row r) rows.
Proof.
  unfold relatives. rewrite Forall_forall. split.
  - intros Hnil r Hin [x Hx]%relative_usable.
    assert (Hx' : x ∈ omap relative rows) by (apply list_elem_of_omap; eauto).
    rewrite Hnil in Hx'. inversion Hx'.
  - intros Hall. apply elem_of_nil_inv. intros x (r & Hin & Hr)%list_elem_of_omap.
    apply (Hall r Hin), relative_usable. eauto.
Qed.

Lemma entry_Some (cat_weights : gmap string R) (r : row) (c : string) (x : R) :
  entry cat_weights r = Some (c, x) <->
  c = categorize_item r.1.1 /\ is_Some (cat_weights !! c) /\ relative r = Some x.
Proof.
  unfold entry. split.
  - destruct (cat_weights !! categorize_item r.1.1) as [w|] eqn:Hw; [|discriminate].
    destruct (relative r) as [y|]; [|discriminate].
    intros [= <- <-]. rewrite Hw. eauto.
  - intros (-> & [w ->] & ->). reflexivity.
Qed.

(** Some category is present exactly when some usable row has a category
    with a weight. *)
Lemma present_nonempty (cat_weights : gmap string R) (rows : list row) :
  (exists r, r ∈ rows /\ usable_row r /\ is_Some (cat_weights !! categorize_item r.1.1))
  <-> present cat_weights rows <> [].
Proof.
  unfold present, entries. split.
  - intros (r & Hin & [x Hx]%relative_usable & Hw).
    assert (He : (categorize_item r.1.1, x) ∈ omap (entry cat_weights) rows).
    { apply list_elem_of_omap. exists r. split; [exact Hin |]. apply entry_Some. auto. }
    destruct (omap (entry cat_weights) rows); [inversion He | discriminate].
  - destruct (omap (entry cat_weights) rows) as [|[c x] es] eqn:E; [simpl; congruence |].
    intros _.
    assert (He : (c, x) ∈ omap (entry cat_weights) rows) by (rewrite E; left).
    apply list_elem_of_omap in He as (r & Hin & (-> & Hw & Hx)%entry_Some).
    exists r. split; [exact Hin |]. split; [apply relative_usable; eauto | exact Hw].
Qed.

Lemma present_nil (cat_weights : gmap string R) (rows : list row) :
  Forall (fun r => ~ usable_row r) rows -> present cat_weights rows = [].
Proof.
  intros Hall. destruct (decide (present cat_weights rows = [])) as [E|Hne]; [exact E |].
  apply present_nonempty in Hne as (r & Hin & Hu & _).
  rewrite Forall_forall in Hall. destruct (Hall r Hin Hu).
Qed.

(* ===================================================================== *)
(** ** The statistics on usable and unusable rows *)
(* ===================================================================== *)

(** C7.  When no row is usable, [compute_unweighted] returns not-a-number for
    both measures and [compute_weighted] returns not-a-number for the
    weighted measure (with no weights used): a returned value, so no
    exception, and not the number zero. *)
Theorem no_usable_rows_nan (rows : list row) (cat_weights : gmap string R) :
  Forall (fun r => ~ usable_row r) rows ->
  compute_unweighted rows = Ok (NaN, NaN)
  /\ compute_weighted rows cat_weights = Ok (NaN, []).
Proof.
  intros Hall. split.
  - rewrite compute_unweighted_total.
    apply relatives_nil in Hall. rewrite Hall. reflexivity.
  - rewrite compute_weighted_total, present_nil by exact Hall. reflexivity.
Qed.

Lemma no_usable_rows_nan_witness :
  compute_unweighted [("Bananas"%string, NaN, Num 2); ("Potatoes"%string, Num 0, Num 3)]
  = Ok (NaN, NaN)
  /\ compute_weighted [("Bananas"%string, NaN, Num 2); ("Potatoes"%string, Num 0, Num 3)]
       DEFAULT_WEIGHTS = Ok (NaN, []).
Proof.
  apply no_usable_rows_nan.
  repeat constructor; intros (a & b & Ha & Hb & Hpa & Hpb); simpl in *.
  - discriminate.
  - injection Ha as <-. lra.
Defined.

(** C8.  For every number [p >= 0], [purchasing_power_after] returns the
    remaining purchasing power [1 / (1 + p)] and the loss [1 - remaining],
    and [remaining + loss == 1.0]; for not-a-number both components are
    not-a-number. *)
Theorem purchasing_power_after_spec :
  (forall p : R, 0 <= p ->
     purchasing_power_after (Some (Num p))
     = Ok (Num (1 / (1 + p)), Num (1 - 1 / (1 + p)))
     /\ feq (fadd (Num (1 / (1 + p))) (Num (1 - 1 / (1 + p)))) (Num 1) = true)
  /\ purchasing_power_after (Some NaN) = Ok (NaN, NaN).
Proof.
  split; [|reflexivity].
  intros p Hp. split.
  - unfold purchasing_power_after. cbn [isnan fadd].
    rewrite fdiv_num by lra. reflexivity.
  - cbn [fadd feq].
    destruct (Req_dec_T (1 / (1 + p) + (1 - 1 / (1 + p))) 1) as [_|Hne]; [reflexivity |].
    exfalso. apply Hne. lra.
Qed.

Lemma purchasing_power_after_witness :
  purchasing_power_after (Some (Num 0.25))
  = Ok (Num (1 / (1 + 0.25)), Num (1 - 1 / (1 + 0.25)))
  /\ feq (fadd (Num (1 / (1 + 0.25))) (Num (1 - 1 / (1 + 0.25)))) (Num 1) = true.
Proof. apply (proj1 purchasing_power_after_spec 0.25). lra. Defined.

(** The categories of the catalog items. *)
Example categorize_catalog :
  map (fun s => categorize_item s.1) SERIES
  = [ "food_at_home"; "food_at_home"; "food_at_home"; "food_at_home"; "food_at_home";
      "food_at_home"; "food_at_home"; "food_at_home"; "food_at_home"; "food_at_home";
      "utilities_electric"; "utilities_gas"; "transport_fuel" ]%string.
Proof. vm_compute. reflexivity. Qed.



(** [compute_weighted] in terms of the entries alone. *)
Lemma compute_weighted_entries (rows : list row) (cat_weights : gmap string R)
    (es : list (string * R)) :
  entries cat_weights rows = es ->
  compute_weighted rows cat_weights =
  match distinct (map fst es) with
  | [] => Ok (NaN, [])
  | _ :: _ =>
      if Req_dec_T (Rsum (map (weight cat_weights) (distinct (map fst es)))) 0
      then Raise ZeroDivisionError
      else Ok (Num (Rsum (map (fun c =>
                                 weight cat_weights c
                                 / Rsum (map (weight cat_weights) (distinct (map fst es)))
                                 * mean (map (fun r => r - 1) (members c es)))
                              (distinct (map fst es)))),
               map (fun c => (c, Num (weight cat_weights c
                                     / Rsum (map (weight cat_weights)
                                               (distinct (map fst es))))))
                   (distinct (map fst es)))
  end.
Proof.
  intros <-. rewrite compute_weighted_total.
  unfold weighted_change, normalized_weights, total_weight, present.
  rewrite map_map. reflexivity.
Qed.

(** Settling the tests on numbers of a concrete input by linear
    arithmetic. *)
Ltac decide_reals :=
  repeat match goal with
         | |- context [Rlt_dec ?a ?b] =>
             destruct (Rlt_dec a b); [|exfalso; lra]
         | |- context [Rlt_dec ?a ?b] =>
             destruct (Rlt_dec a b); [exfalso; lra|]
         | |- context [Req_dec_T ?a ?b] =>
             destruct (Req_dec_T a b); [exfalso; lra|]
         | |- context [Req_dec_T ?a ?b] =>
             destruct (Req_dec_T a b); [|exfalso; lra]
         end.




Lemma present_elem (cat_weights : gmap string R) (rows : list row) (c : string) :
  c ∈ present cat_weights rows <->
  is_Some (cat_weights !! c)
  /\ exists r, r ∈ rows /\ usable_row r /\ categorize_item r.1.1 = c.
Proof.
  unfold present, entries. rewrite distinct_elem, list_elem_of_In, in_map_iff. split.
  - intros ([c' x] & Hc & He). simpl in Hc. subst c'.
    apply list_elem_of_In, list_elem_of_omap in He as (r & Hin & (-> & Hw & Hx)%entry_Some).
    split; [exact Hw |]. exists r. split; [exact Hin |].
    split; [apply relative_usable; eauto | reflexivity].
  - intros (Hw & r & Hin & [x Hx]%relative_usable & <-).
    exists (categorize_item r.1.1, x). split; [reflexivity |].
    apply list_elem_of_In, list_elem_of_omap. exists r. split; [exact Hin |].
    apply entry_Some. auto.
Qed.




(* ===================================================================== *)
(** ** Bounds: every change of the pipeline is above -1 *)
(* ===================================================================== *)
















(* ===================================================================== *)
(** ** categorize_item *)
(* ===================================================================== *)


Lemma append_empty (b : string) : "" +:+ b = b.
Proof. reflexivity. Qed.





Lemma lower_ascii_idem (c : ascii) : lower_ascii (lower_ascii c) = lower_ascii c.
Proof. destruct c as [[] [] [] [] [] [] [] []]; reflexivity. Qed.











(* ===================================================================== *)
(** ** year_avg *)
(* ===================================================================== *)

Lemma comprehension_numbers {A : Type} (f : A -> result pyfloat) (l : list A) (xs : list R) :
  Forall2 (fun a x => f a = Ok (Num x)) l xs -> comprehension f l = Ok (map Num xs).
Proof.
  induction 1 as [|a x l xs Ha _ IH]; simpl; [reflexivity |].
  rewrite Ha. simpl. rewrite IH. reflexivity.
Qed.

Lemma kept_observations (observations : list observation) :
  filter (fun o => value o ∉ [""; "."]) observations = filter has_value observations.
Proof.
  apply list_filter_iff. intros o. unfold has_value.
  rewrite !not_elem_of_cons. split; [tauto |].
  intros [? ?]. split; [congruence |]. split; [congruence | apply not_elem_of_nil].
Qed.

(** The reduction at the end of [year_avg]: the mean of the values that are
    not missing, or not-a-number when none is left. *)
Lemma year_avg_of_mean (float_ : string -> result pyfloat)
    (observations : list observation) (xs : list R) :
  Forall2 (fun o x => float_ (value o) = Ok (Num x)) (filter has_value observations) xs ->
  year_avg_of float_ observations = Ok (mean_or_nan xs).
Proof.
  intros Hxs. unfold year_avg_of. rewrite kept_observations.
  rewrite (comprehension_numbers _ _ xs Hxs). cbn [mbind result_bind].
  destruct xs as [|x xs]; [reflexivity |].
  set (l := x :: xs).
  change (match map Num l with [] => Ok NaN | _ :: _ => fdiv (py_sum (map Num l)) (py_len (map Num l)) end
          = Ok (Num (mean l))).
  rewrite match_nonempty by discriminate.
  rewrite py_sum_num. unfold py_len. rewrite length_map.
  apply fdiv_num, Rgt_not_eq, INR_length_pos. discriminate.
Qed.

(** C6.  In both scripts [year_avg] issues one request and, on the parsed
    observation list, leaves out the observations whose value is the empty
    string or a single dot, converts the other values with [float], and
    returns the arithmetic mean of the numbers obtained, or not-a-number when
    no observation is left; the missing ones do not count in the mean. *)
Theorem year_avg_mean (w : world) (series_id key : string) (year : Z)
    (observations : list observation) (xs : list R) (t : list event) :
  fred w series_id year = Ok observations ->
  Forall2 (fun o x => py_float w (value o) = Ok (Num x)) (filter has_value observations) xs ->
  year_avg w series_id year key t
  = (t ++ [HttpGet series_id year key], Ok (mean_or_nan xs))
  /\ personal_inflation.year_avg w key series_id year t
     = (t ++ [HttpGet series_id year key], Ok (mean_or_nan xs))
  /\ length xs = length (filter has_value observations).
Proof.
  intros Hfred Hxs. pose proof (year_avg_of_mean _ _ _ Hxs) as Havg.
  split; [|split].
  - unfold year_avg, emit, lift, mbind, proc_bind. cbv beta iota.
    rewrite Hfred. cbv beta iota. rewrite Havg. reflexivity.
  - unfold personal_inflation.year_avg, emit, lift, mbind, proc_bind. cbv beta iota.
    rewrite Hfred. cbv beta iota. rewrite Havg. reflexivity.
  - symmetry. eapply Forall2_length, Hxs.
Qed.

Example float_decimal_1_5 : float_decimal "1.5" = Ok (Num 1.5).
Proof. reflexivity. Qed.

Example float_decimal_word : float_decimal "n/a" = Raise ValueError.
Proof. reflexivity. Qed.

(** A witness of C6: the values 1.5, missing, 2.5 average to 2. *)
Lemma year_avg_mean_witness :
  year_avg (sample_world [] ∅) "APU0000708111" 2024 "k" []
  = ([HttpGet "APU0000708111" 2024 "k"], Ok (mean_or_nan [1.5; 2.5]))
  /\ personal_inflation.year_avg (sample_world [] ∅) "k" "APU0000708111" 2024 []
     = ([HttpGet "APU0000708111" 2024 "k"], Ok (mean_or_nan [1.5; 2.5]))
  /\ length [1.5; 2.5] = 2%nat.
Proof.
  apply (year_avg_mean (sample_world [] ∅) "APU0000708111" "k" 2024
           [ {| value := "1.5" |}; {| value := "." |}; {| value := "2.5" |} ]
           [1.5; 2.5] []).
  - reflexivity.
  - repeat constructor.
Defined.

(* ===================================================================== *)
(** ** The credential check *)
(* ===================================================================== *)

(** With the variable unset or empty, [get_key] prints nothing and calls
    nothing: it exits with the message. *)
Lemma get_key_missing (w : world) (t : list event) :
  environ w !! "FRED_API_KEY" = None \/ environ w !! "FRED_API_KEY" = Some "" ->
  get_key w t
  = (t, Raise (SystemExit
                 (ExitMsg "Set FRED_API_KEY in your environment (export FRED_API_KEY=...).")) ).
Proof. intros [H|H]; unfold get_key; rewrite H; reflexivity. Qed.

(** C9, as the code has it.  When FRED_API_KEY is unset or empty, the plain
    script, on every run, and the richer script, on every run whose command
    line [parse_args] accepts, do nothing but print the instruction to set
    the variable on stderr and exit with status 1: no network call is
    made. *)
Theorem missing_key_exits_before_network (w : world) :
  environ w !! "FRED_API_KEY" = None \/ environ w !! "FRED_API_KEY" = Some "" ->
  (run (personal_inflation.script w)
   = ([Stderr "Set FRED_API_KEY in your environment"], 1%Z)
   /\ http_calls (run (personal_inflation.script w)).1 = [])
  /\ (forall args, argparse w (argv w) = Parsed args ->
        run (main w)
        = ([Stderr "Set FRED_API_KEY in your environment (export FRED_API_KEY=...)."], 1%Z)
        /\ http_calls (run (main w)).1 = []).
Proof.
  intros Hkey. split.
  - assert (Hrun : run (personal_inflation.script w)
                   = ([Stderr "Set FRED_API_KEY in your environment"], 1%Z)).
    { unfold run, personal_inflation.script, mbind, proc_bind.
      destruct Hkey as [H|H]; rewrite H; reflexivity. }
    rewrite Hrun. split; reflexivity.
  - intros args Hargs.
    assert (Hrun : run (main w)
                   = ([Stderr "Set FRED_API_KEY in your environment (export FRED_API_KEY=...)."],
                      1%Z)).
    { unfold run, main. rewrite Hargs. unfold mbind at 1 2, proc_bind at 1 2.
      cbn [mret proc_ret]. unfold mbind at 1, proc_bind at 1.
      rewrite (get_key_missing w [] Hkey). reflexivity. }
    rewrite Hrun. split; reflexivity.
Qed.

Lemma missing_key_exits_before_network_witness :
  (run (personal_inflation.script (sample_world [] ∅))
   = ([Stderr "Set FRED_API_KEY in your environment"], 1%Z)
   /\ http_calls (run (personal_inflation.script (sample_world [] ∅))).1 = [])
  /\ (forall args, argparse (sample_world [] ∅) (argv (sample_world [] ∅)) = Parsed args ->
        run (main (sample_world [] ∅))
        = ([Stderr "Set FRED_API_KEY in your environment (export FRED_API_KEY=...)."], 1%Z)
        /\ http_calls (run (main (sample_world [] ∅))).1 = []).
Proof. apply missing_key_exits_before_network. left. reflexivity. Defined.

(** C9 as stated fails for the richer script: asked for its help with the
    variable unset, it prints the usage and exits with status 0. *)
Lemma help_exits_zero_without_key :
  environ (sample_world ["--help"] ∅) !! "FRED_API_KEY" = None
  /\ run (main (sample_world ["--help"] ∅)) = ([Print "usage" []], 0%Z).
Proof. split; reflexivity. Qed.

(* ===================================================================== *)
(** ** Python's sort: permutation, order, stability *)
(* ===================================================================== *)

Section stable_sort.
Context {A K : Type} `{EqDecision K} (lt : K -> K -> bool) (key : A -> K).

(** [lt] is a strict order whose complement is a total preorder. *)
Hypothesis lt_asym : forall a b, lt a b = true -> lt b a = false.
Hypothesis le_trans : forall a b c, lt b a = false -> lt c b = false -> lt c a = false.

#[local] Abbreviation before := (key_before lt key).

Lemma insert_sorted_perm (x : A) (l : list A) : insert_sorted lt key x l ≡ₚ x :: l.
Proof.
  induction l as [|y l IH]; simpl; [reflexivity |].
  destruct (lt (key x) (key y)); [reflexivity |].
  rewrite IH. apply Permutation_swap.
Qed.

Lemma insert_sorted_sorted (x : A) (l : list A) :
  StronglySorted before l -> StronglySorted before (insert_sorted lt key x l).
Proof.
  induction 1 as [|y l Hl IH Hy]; simpl; [repeat constructor |].
  destruct (lt (key x) (key y)) eqn:Hxy.
  - constructor; [constructor; assumption |].
    constructor; [apply lt_asym, Hxy |].
    eapply Forall_impl; [exact Hy |]. intros z Hz. unfold before in *.
    eapply le_trans; [apply lt_asym, Hxy | exact Hz].
  - constructor; [exact IH |].
    rewrite insert_sorted_perm. constructor; [exact Hxy | exact Hy].
Qed.

Lemma insert_sorted_filter (k : K) (x : A) (l : list A) :
  StronglySorted before l ->
  filter (fun a => key a = k) (insert_sorted lt key x l)
  = filter (fun a => key a = k) l ++ filter (fun a => key a = k) [x].
Proof.
  induction 1 as [|y l Hl IH Hy]; simpl; [reflexivity |].
  destruct (lt (key x) (key y)) eqn:Hxy.
  - destruct (decide (key x = k)) as [Hk|Hk].
    + assert (Hnone : filter (fun a => key a = k) (y :: l) = []).
      { apply elem_of_nil_inv. intros z [Hz Hin]%list_elem_of_filter.
        assert (Hb : lt (key z) (key y) = false).
        { apply elem_of_cons in Hin as [->|Hin].
          - rewrite Hz, <- Hk. destruct (lt (key x) (key x)) eqn:E; [|reflexivity].
            rewrite (lt_asym _ _ E) in E. discriminate.
          - rewrite Forall_forall in Hy. apply (Hy z Hin). }
        rewrite Hz, <- Hk, Hxy in Hb. discriminate. }
      rewrite (filter_cons_True _ x) by exact Hk. rewrite Hnone.
      rewrite (filter_cons_True _ x) by exact Hk. reflexivity.
    + rewrite (filter_cons_False _ x) by exact Hk.
      rewrite (filter_cons_False _ x [] ) by exact Hk.
      rewrite filter_nil, app_nil_r. reflexivity.
  - rewrite !(filter_cons _ y). rewrite IH.
    destruct (decide (key y = k)); reflexivity.
Qed.

Lemma sort_loop (l acc : list A) :
  StronglySorted before acc ->
  fold_left (fun acc x => insert_sorted lt key x acc) l acc ≡ₚ acc ++ l
  /\ StronglySorted before (fold_left (fun acc x => insert_sorted lt key x acc) l acc)
  /\ forall k,
       filter (fun a => key a = k)
         (fold_left (fun acc x => insert_sorted lt key x acc) l acc)
       = filter (fun a => key a = k) acc ++ filter (fun a => key a = k) l.
Proof.
  revert acc. induction l as [|x l IH]; intros acc Hacc; simpl.
  - rewrite !app_nil_r. split; [reflexivity |]. split; [exact Hacc |].
    intros k. rewrite app_nil_r. reflexivity.
  - destruct (IH (insert_sorted lt key x acc) (insert_sorted_sorted x acc Hacc))
      as (Hp & Hs & Hf).
    split; [|split; [exact Hs |]].
    + rewrite Hp, insert_sorted_perm. simpl. apply Permutation_middle.
    + intros k. rewrite Hf, insert_sorted_filter by exact Hacc.
      rewrite <- app_assoc, <- filter_app. reflexivity.
Qed.

(** [sorted] rearranges the list in non-decreasing key order and keeps
    the entries of equal key in their original order. *)
Lemma py_sorted_spec (l : list A) :
  py_sorted lt key l ≡ₚ l
  /\ StronglySorted before (py_sorted lt key l)
  /\ forall k, filter (fun a => key a = k) (py_sorted lt key l)
               = filter (fun a => key a = k) l.
Proof. apply (sort_loop l []). constructor. Qed.

Lemma filter_rev (P : A -> Prop) `{forall a, Decision (P a)} (l : list A) :
  filter P (rev l) = rev (filter P l).
Proof.
  induction l as [|x l IH]; simpl; [reflexivity |].
  rewrite filter_app, IH. destruct (decide (P x)) as [HP|HP].
  - rewrite !filter_cons_True by exact HP. reflexivity.
  - rewrite !filter_cons_False by exact HP. apply app_nil_r.
Qed.

Lemma StronglySorted_rev (R : A -> A -> Prop) (l : list A) :
  StronglySorted R l -> StronglySorted (fun x y => R y x) (rev l).
Proof.
  induction 1 as [|x l Hl IH Hx]; simpl; [constructor |].
  apply StronglySorted_app. split; [|split; [exact IH | repeat constructor]].
  intros y z Hy%list_elem_of_In%in_rev ->%list_elem_of_singleton.
  rewrite Forall_forall in Hx. apply Hx, list_elem_of_In, Hy.
Qed.

(** [sorted(..., reverse=True)] rearranges the list in non-increasing key
    order and also keeps the entries of equal key in their original
    order. *)
Lemma py_sorted_reverse_spec (l : list A) :
  py_sorted_reverse lt key l ≡ₚ l
  /\ StronglySorted (fun x y => before y x) (py_sorted_reverse lt key l)
  /\ forall k, filter (fun a => key a = k) (py_sorted_reverse lt key l)
               = filter (fun a => key a = k) l.
Proof.
  unfold py_sorted_reverse.
  destruct (py_sorted_spec (rev l)) as (Hp & Hs & Hf). split; [|split].
  - rewrite <- Permutation_rev, Hp, <- Permutation_rev. reflexivity.
  - apply StronglySorted_rev, Hs.
  - intros k. rewrite filter_rev, Hf, filter_rev, rev_involutive. reflexivity.
Qed.
End stable_sort.

(* ===================================================================== *)
(** ** Top movers *)
(* ===================================================================== *)

Lemma Rltb_asym (a b : R) : Rltb a b = true -> Rltb b a = false.
Proof. unfold Rltb. destruct (Rlt_dec a b), (Rlt_dec b a); intros; congruence || lra. Qed.

Lemma Rltb_le_trans (a b c : R) : Rltb b a = false -> Rltb c b = false -> Rltb c a = false.
Proof.
  unfold Rltb. destruct (Rlt_dec b a), (Rlt_dec c b), (Rlt_dec c a); intros;
    congruence || lra.
Qed.

Lemma Rltb_false (a b : R) : Rltb b a = false <-> a <= b.
Proof. unfold Rltb. destruct (Rlt_dec b a); split; intros; congruence || lra. Qed.

Lemma StronglySorted_weaken {A : Type} (P Q : A -> A -> Prop) (l : list A) :
  (forall x y, P x y -> Q x y) -> StronglySorted P l -> StronglySorted Q l.
Proof.
  intros HPQ. induction 1 as [|x l Hl IH Hx]; constructor; [exact IH |].
  eapply Forall_impl; [exact Hx | apply HPQ].
Qed.

(** Sorting pairs of numbers by their float keys is sorting them by the
    numbers. *)
Lemma insert_sorted_num (x : string * R) (l : list (string * R)) :
  insert_sorted flt snd (num_pair x) (map num_pair l)
  = map num_pair (insert_sorted Rltb snd x l).
Proof.
  induction l as [|y l IH]; [reflexivity |].
  cbn [map insert_sorted].
  change (flt (num_pair x).2 (num_pair y).2) with (Rltb x.2 y.2).
  destruct (Rltb x.2 y.2); [reflexivity |].
  cbn [map]. rewrite IH. reflexivity.
Qed.

Lemma sort_loop_num (l acc : list (string * R)) :
  fold_left (fun acc x => insert_sorted flt snd x acc) (map num_pair l) (map num_pair acc)
  = map num_pair (fold_left (fun acc x => insert_sorted Rltb snd x acc) l acc).
Proof.
  revert acc. induction l as [|x l IH]; intros acc; simpl; [reflexivity |].
  rewrite insert_sorted_num. apply IH.
Qed.

Lemma py_sorted_num (l : list (string * R)) :
  py_sorted flt snd (map num_pair l) = map num_pair (py_sorted Rltb snd l).
Proof. apply (sort_loop_num l []). Qed.

Lemma py_sorted_reverse_num (l : list (string * R)) :
  py_sorted_reverse flt snd (map num_pair l) = map num_pair (py_sorted_reverse Rltb snd l).
Proof.
  unfold py_sorted_reverse. rewrite <- map_rev, py_sorted_num, map_rev. reflexivity.
Qed.

Lemma pct_changes_num (rows : list (string * R * R)) :
  Forall (fun r => 0 < r.1.2 /\ 0 < r.2) rows ->
  pct_changes (map num_row rows) = Ok (map (fun p => Num p.2) (changes rows)).
Proof.
  intros Hpos. unfold pct_changes, changes. rewrite map_map.
  induction Hpos as [|[[name a] b] rows [Ha Hb] _ IH]; [reflexivity |].
  simpl in Ha, Hb. cbn [map comprehension num_row fst snd].
  rewrite fdiv_num by lra. cbn [mbind result_bind fsub].
  cbn [map comprehension num_row fst snd] in IH. rewrite IH. reflexivity.
Qed.

Lemma zip_names_changes (rows : list (string * R * R)) :
  zip (map (fun r : row => r.1.1) (map num_row rows)) (map (fun p => Num p.2) (changes rows))
  = map num_pair (changes rows).
Proof.
  unfold changes. induction rows as [|r rows IH]; [reflexivity |].
  cbn [map zip zip_with]. f_equal. exact IH.
Qed.

(** C5, as the code has it.  For usable rows, the top increases are the
    first five entries of the (item, change) pairs ordered by non-increasing
    change, the top decreases the first five ordered by non-decreasing
    change, whatever the signs of the changes; both orders keep pairs of
    equal change in catalog order. *)
Theorem top_movers_sorted (rows : list (string * R * R)) :
  Forall (fun r => 0 < r.1.2 /\ 0 < r.2) rows ->
  exists descending ascending : list (string * R),
    top_movers (map num_row rows)
    = Ok (map num_pair (take 5 descending), map num_pair (take 5 ascending))
    /\ (descending ≡ₚ changes rows
        /\ StronglySorted (fun p q => q.2 <= p.2) descending
        /\ forall k, filter (fun p => p.2 = k) descending
                     = filter (fun p => p.2 = k) (changes rows))
    /\ (ascending ≡ₚ changes rows
        /\ StronglySorted (fun p q => p.2 <= q.2) ascending
        /\ forall k, filter (fun p => p.2 = k) ascending
                     = filter (fun p => p.2 = k) (changes rows)).
Proof.
  intros Hpos.
  exists (py_sorted_reverse Rltb snd (changes rows)), (py_sorted Rltb snd (changes rows)).
  split; [|split].
  - unfold top_movers. rewrite pct_changes_num by exact Hpos.
    cbn [mbind result_bind]. rewrite zip_names_changes.
    rewrite py_sorted_reverse_num, py_sorted_num.
    rewrite <- !firstn_map. reflexivity.
  - destruct (py_sorted_reverse_spec Rltb snd Rltb_asym Rltb_le_trans (changes rows))
      as (Hp & Hs & Hf).
    split; [exact Hp |]. split; [|exact Hf].
    eapply StronglySorted_weaken; [|exact Hs]. intros p q H. apply Rltb_false, H.
  - destruct (py_sorted_spec Rltb snd Rltb_asym Rltb_le_trans (changes rows))
      as (Hp & Hs & Hf).
    split; [exact Hp |]. split; [|exact Hf].
    eapply StronglySorted_weaken; [|exact Hs]. intros p q H. apply Rltb_false, H.
Qed.

Lemma top_movers_sorted_witness :
  exists descending ascending : list (string * R),
    top_movers (map num_row [("Bananas", 2, 1); ("Eggs, large", 1, 3)])
    = Ok (map num_pair (take 5 descending), map num_pair (take 5 ascending))
    /\ (descending ≡ₚ changes [("Bananas", 2, 1); ("Eggs, large", 1, 3)]
        /\ StronglySorted (fun p q => q.2 <= p.2) descending
        /\ forall k, filter (fun p => p.2 = k) descending
                     = filter (fun p => p.2 = k)
                         (changes [("Bananas", 2, 1); ("Eggs, large", 1, 3)]))
    /\ (ascending ≡ₚ changes [("Bananas", 2, 1); ("Eggs, large", 1, 3)]
        /\ StronglySorted (fun p q => p.2 <= q.2) ascending
        /\ forall k, filter (fun p => p.2 = k) ascending
                     = filter (fun p => p.2 = k)
                         (changes [("Bananas", 2, 1); ("Eggs, large", 1, 3)])).
Proof. apply top_movers_sorted. repeat constructor; simpl; lra. Defined.

(** C5 as stated fails: with one price that fell and one that rose, the
    top increases contain the negative change and the top decreases the
    positive one. *)
Lemma top_movers_ignore_sign :
  top_movers [("Bananas", Num 2, Num 1); ("Eggs, large", Num 1, Num 3)]
  = Ok ([("Eggs, large", Num (3 / 1 - 1)); ("Bananas", Num (1 / 2 - 1))],
        [("Bananas", Num (1 / 2 - 1)); ("Eggs, large", Num (3 / 1 - 1))])
  /\ 1 / 2 - 1 < 0 /\ 0 < 3 / 1 - 1.
Proof.
  split; [|lra].
  change [("Bananas", Num 2, Num 1); ("Eggs, large", Num 1, Num 3)]
    with (map num_row [("Bananas", 2, 1); ("Eggs, large", 1, 3)]).
  unfold top_movers. rewrite pct_changes_num by (repeat constructor; simpl; lra).
  cbn [mbind result_bind]. rewrite zip_names_changes.
  rewrite py_sorted_reverse_num, py_sorted_num.
  unfold py_sorted_reverse, py_sorted, changes.
  cbn [map rev app fold_left insert_sorted fst snd].
  unfold Rltb. decide_reals. reflexivity.
Qed.

(* ===================================================================== *)
(** ** Order of the rows *)
(* ===================================================================== *)

Lemma Rsum_perm (l l' : list R) : l ≡ₚ l' -> Rsum l = Rsum l'.
Proof. induction 1; simpl in *; lra. Qed.

Lemma mean_perm (l l' : list R) : l ≡ₚ l' -> mean l = mean l'.
Proof.
  intros Hp. unfold mean. rewrite (Rsum_perm l l' Hp), (Permutation_length Hp). reflexivity.
Qed.

(** X1.  In exact arithmetic the two unweighted measures do not depend on
    the order of the rows. *)
Theorem compute_unweighted_reorder (rows rows' : list row) :
  rows ≡ₚ rows' -> compute_unweighted rows = compute_unweighted rows'.
Proof.
  intros Hp. rewrite !compute_unweighted_total. f_equal.
  assert (Hrel : relatives rows ≡ₚ relatives rows').
  { unfold relatives. rewrite Hp. reflexivity. }
  destruct (relatives rows) as [|x l] eqn:E, (relatives rows') as [|x' l'] eqn:E'.
  - reflexivity.
  - apply Permutation_nil_l in Hrel. discriminate.
  - apply Permutation_nil_r in Hrel. discriminate.
  - cbv zeta. f_equal; [|do 2 f_equal]; f_equal; apply mean_perm;
      apply Permutation_map, Hrel.
Qed.

Lemma compute_unweighted_reorder_witness :
  compute_unweighted [("Bananas", Num 2, Num 1); ("Eggs, large", Num 1, Num 3)]
  = compute_unweighted [("Eggs, large", Num 1, Num 3); ("Bananas", Num 2, Num 1)].
Proof. apply compute_unweighted_reorder, Permutation_swap. Defined.

(* ===================================================================== *)
(** ** The network calls of a run *)
(* ===================================================================== *)

Lemma http_calls_app (t t' : list event) : http_calls (t ++ t') = http_calls t ++ http_calls t'.
Proof. apply List.filter_app. Qed.

Lemma quiet_ret {A : Type} (a : A) : quiet (mret a).
Proof. intros t. reflexivity. Qed.

Lemma quiet_lift {A : Type} (r : result A) : quiet (lift r).
Proof. intros t. reflexivity. Qed.

Lemma quiet_sys_exit {A : Type} (arg : exit_arg) : quiet (sys_exit (A := A) arg).
Proof. intros t. reflexivity. Qed.

Lemma quiet_emit (e : event) : is_http_get e = false -> quiet (emit e).
Proof.
  intros He t. unfold emit. cbn [fst]. rewrite http_calls_app.
  unfold http_calls at 2. cbn [List.filter]. rewrite He. apply app_nil_r.
Qed.

Lemma quiet_bind {A B : Type} (m : proc A) (f : A -> proc B) :
  quiet m -> (forall a, quiet (f a)) -> quiet (m ≫= f).
Proof.
  intros Hm Hf t. unfold mbind, proc_bind. specialize (Hm t).
  destruct (m t) as [t' [a|e]]; cbn [fst] in *; [|exact Hm].
  rewrite Hf. exact Hm.
Qed.

Lemma quiet_for_each {A S : Type} (body : S -> A -> proc S) (xs : list A) (acc : S) :
  (forall acc x, quiet (body acc x)) -> quiet (for_each_proc body xs acc).
Proof.
  intros Hb. revert acc. induction xs as [|x xs IH]; intros acc; simpl.
  - apply quiet_ret.
  - apply quiet_bind; [apply Hb | exact IH].
Qed.

(** Proves that a piece of code is [quiet] by following its structure. *)
Ltac quiet_step :=
  match goal with
  | |- quiet (mret _) => apply quiet_ret
  | |- quiet (lift _) => apply quiet_lift
  | |- quiet (sys_exit _) => apply quiet_sys_exit
  | |- quiet (emit _) => apply quiet_emit; reflexivity
  | |- quiet (_ ≫= _) => apply quiet_bind; [|intros ?]
  | |- quiet (for_each_proc _ _ _) => apply quiet_for_each; intros ? ?
  | |- quiet (print_movers _ _) => unfold print_movers
  | |- quiet ((fun _ => _) _) => cbv beta
  | |- quiet (let '(_, _) := ?p in _) => destruct p
  | |- quiet (if ?b then _ else _) => destruct b
  | |- quiet (match ?o with Some _ => _ | None => _ end) => destruct o
  end.

(** A successful [year_avg] adds its one request to the trace. *)
Lemma year_avg_call (w : world) (sid : string) (year : Z) (key : string) (t : list event) :
  (exists obs x, fred w sid year = Ok obs /\ year_avg_of (py_float w) obs = Ok x) ->
  exists x, year_avg w sid year key t = (t ++ [HttpGet sid year key], Ok x).
Proof.
  intros (obs & x & Hf & Hx). exists x.
  unfold year_avg, emit, lift, mbind, proc_bind. cbv beta iota.
  rewrite Hf. cbv beta iota. rewrite Hx. reflexivity.
Qed.

(** The fetch loop of [main], over any catalog: when every fetch succeeds it
    ends normally, having made the calls of the catalog. *)
Lemma fetch_loop_calls (w : world) (args : arguments) (key : string)
    (catalog : list (string * (string * string)))
    (acc : list row * list (list csv_field)) (t : list event) :
  (forall sid year, exists obs x,
      fred w sid year = Ok obs /\ year_avg_of (py_float w) obs = Ok x) ->
  exists acc' t',
    for_each_proc (fun '(rows_for_calc, out_rows) '(item, (unit_, sid)) =>
        a ← year_avg w sid (year_a args) key;
        b ← year_avg w sid (year_b args) key;
        let out_rows :=
          out_rows ++ [[Text item; Text unit_; fixed3_or_blank a; fixed3_or_blank b;
                        Text ("BLS Average Price via FRED (" +:+ sid
                              +:+ "); annual mean of monthly")]] in
        if feq a a && feq b b && fgt a (Num 0) && fgt b (Num 0)
        then mret (rows_for_calc ++ [(item, a, b)], out_rows)
        else mret (rows_for_calc, out_rows))
      catalog acc t = (t', Ok acc')
    /\ http_calls t' = http_calls t ++ catalog_calls catalog (year_a args) (year_b args) key.
Proof.
  intros Hfred. revert acc t.
  induction catalog as [|[item [unit_ sid]] catalog IH]; intros [rows_for_calc out_rows] t.
  - exists (rows_for_calc, out_rows), t. split; [reflexivity |].
    unfold catalog_calls. simpl. rewrite app_nil_r. reflexivity.
  - destruct (year_avg_call w sid (year_a args) key t (Hfred _ _)) as [a Ha].
    destruct (year_avg_call w sid (year_b args) key (t ++ [HttpGet sid (year_a args) key])
                (Hfred _ _)) as [b Hb].
    cbn [for_each_proc]. unfold mbind at 1, proc_bind at 1.
    unfold mbind at 1, proc_bind at 1. rewrite Ha.
    unfold mbind at 1, proc_bind at 1. rewrite Hb.
    set (out_rows' := out_rows ++ _).
    set (t2 := (t ++ [HttpGet sid (year_a args) key]) ++ [HttpGet sid (year_b args) key]).
    destruct (feq a a && feq b b && fgt a (Num 0) && fgt b (Num 0)).
    + destruct (IH (rows_for_calc ++ [(item, a, b)], out_rows') t2) as (acc' & t' & Hrun & Hcalls).
      exists acc', t'. split; [exact Hrun |].
      rewrite Hcalls. unfold t2. rewrite !http_calls_app, <- !app_assoc. reflexivity.
    + destruct (IH (rows_for_calc, out_rows') t2) as (acc' & t' & Hrun & Hcalls).
      exists acc', t'. split; [exact Hrun |].
      rewrite Hcalls. unfold t2. rewrite !http_calls_app, <- !app_assoc. reflexivity.
Qed.

Lemma http_calls_run (script : proc unit) :
  http_calls (run script).1 = http_calls (script []).1.
Proof.
  unfold run. destruct (script []) as [t [[]|e]]; cbn [fst]; [reflexivity |].
  destruct e as [| | | |[status|text]]; cbn [fst];
    rewrite ?http_calls_app, ?app_nil_r; reflexivity.
Qed.

(** X2.  When the command line is accepted, the credential is set and every
    fetch succeeds, a run of the richer script makes exactly the requests of
    the catalog, one per (series, year), in catalog order, however the run
    ends after them. *)
Theorem main_network_calls (w : world) (args : arguments) (key : string) :
  argparse w (argv w) = Parsed args ->
  environ w !! "FRED_API_KEY" = Some key -> key <> "" ->
  (forall sid year, exists obs x,
      fred w sid year = Ok obs /\ year_avg_of (py_float w) obs = Ok x) ->
  http_calls (run (main w)).1 = catalog_calls SERIES (year_a args) (year_b args) key.
Proof.
  intros Hargs Hkey Hne Hfred. rewrite http_calls_run.
  unfold main. rewrite Hargs.
  unfold mbind at 1, proc_bind at 1. cbn [mret proc_ret].
  unfold mbind at 1, proc_bind at 1.
  unfold get_key at 1. rewrite Hkey. rewrite decide_False by exact Hne.
  cbn [mret proc_ret].
  unfold mbind at 1, proc_bind at 1.
  destruct (fetch_loop_calls w args key SERIES ([], []) [] Hfred)
    as ([rows_for_calc out_rows] & t' & Hloop & Hcalls).
  match goal with
  | |- context [for_each_proc ?body SERIES ?acc ?t] =>
      assert (Hloop' : for_each_proc body SERIES acc t = (t', Ok (rows_for_calc, out_rows)))
        by exact Hloop;
      rewrite Hloop'
  end.
  cbv beta iota. rewrite <- (app_nil_l (catalog_calls _ _ _ _)).
  change (@nil event) with (http_calls []) at 1. rewrite <- Hcalls.
  match goal with
  | |- http_calls (?rest t').1 = _ => assert (Hquiet : quiet rest)
  end.
  { repeat quiet_step. }
  apply Hquiet.
Qed.

Lemma main_network_calls_witness :
  http_calls (run (main (sample_world [] {[ "FRED_API_KEY" := "k" ]}))).1
  = catalog_calls SERIES 2000 2024 "k".
Proof.
  apply (main_network_calls (sample_world [] {[ "FRED_API_KEY" := "k" ]})
           default_arguments "k").
  - reflexivity.
  - reflexivity.
  - discriminate.
  - intros sid year.
    exists [ {| value := "1.5" |}; {| value := "." |}; {| value := "2.5" |} ],
           (mean_or_nan [1.5; 2.5]).
    split; [reflexivity |].
    apply year_avg_of_mean. repeat constructor.
Defined.

(* ===================================================================== *)
(** ** How the measures relate *)
(* ===================================================================== *)














(* ===================================================================== *)
(** ** What the weights may vary in *)
(* ===================================================================== *)

Lemma entries_same_domain (cw cw' : gmap string R) (rows : list row) :
  (forall r, r ∈ rows -> usable_row r ->
             is_Some (cw !! categorize_item r.1.1) <-> is_Some (cw' !! categorize_item r.1.1)) ->
  entries cw rows = entries cw' rows.
Proof.
  unfold entries. induction rows as [|r rows IH]; intros Hdom; [reflexivity |].
  cbn [omap list_omap] in *.
  assert (Hr : entry cw r = entry cw' r).
  { unfold entry. destruct (relative r) as [x|] eqn:Hx.
    - assert (Hu : usable_row r) by (apply relative_usable; eauto).
      specialize (Hdom r (list_elem_of_here _ _) Hu).
      destruct (cw !! categorize_item r.1.1), (cw' !! categorize_item r.1.1);
        try reflexivity; exfalso.
      + destruct Hdom as [H _]. destruct H; [eauto | discriminate].
      + destruct Hdom as [_ H]. destruct H; [eauto | discriminate].
    - destruct (cw !! categorize_item r.1.1), (cw' !! categorize_item r.1.1); reflexivity. }
  rewrite Hr, IH; [reflexivity |].
  intros r' Hin. apply Hdom. right. exact Hin.
Qed.

(** [compute_weighted] reads the weights at the present categories only. *)
Lemma compute_weighted_ext (cw cw' : gmap string R) (rows : list row) :
  entries cw rows = entries cw' rows ->
  (forall c, c ∈ present cw rows -> weight cw c = weight cw' c) ->
  compute_weighted rows cw = compute_weighted rows cw'.
Proof.
  intros Hes Hw.
  rewrite (compute_weighted_entries rows cw (entries cw rows)) by reflexivity.
  rewrite (compute_weighted_entries rows cw' (entries cw rows)) by (symmetry; exact Hes).
  unfold present in Hw. set (ps := distinct (map fst (entries cw rows))) in *.
  assert (Hmap : map (weight cw) ps = map (weight cw') ps).
  { apply map_ext_in. intros c Hc%list_elem_of_In. apply Hw, Hc. }
  rewrite Hmap. destruct ps as [|p ps'] eqn:E; [reflexivity |]. rewrite <- E in *.
  destruct (Req_dec_T (Rsum (map (weight cw') ps)) 0); [reflexivity |].
  f_equal. f_equal.
  - f_equal. f_equal. apply map_ext_in. intros c Hc%list_elem_of_In.
    rewrite (Hw c Hc). reflexivity.
  - apply map_ext_in. intros c Hc%list_elem_of_In. rewrite (Hw c Hc). reflexivity.
Qed.

(** X5.  The weights of categories without a usable member do not matter:
    two weight mappings that agree on the category of every usable row give
    the same result. *)
Theorem absent_weights_irrelevant (cw cw' : gmap string R) (rows : list row) :
  (forall r, r ∈ rows -> usable_row r ->
             cw !! categorize_item r.1.1 = cw' !! categorize_item r.1.1) ->
  compute_weighted rows cw = compute_weighted rows cw'.
Proof.
  intros Hagree. apply compute_weighted_ext.
  - apply entries_same_domain. intros r Hin Hu. rewrite (Hagree r Hin Hu). reflexivity.
  - intros c (_ & r & Hin & Hu & <-)%present_elem.
    unfold weight. rewrite (Hagree r Hin Hu). reflexivity.
Qed.

Lemma absent_weights_irrelevant_witness :
  compute_weighted [("Bananas", Num 1, Num 3)] DEFAULT_WEIGHTS
  = compute_weighted [("Bananas", Num 1, Num 3)] (<["shelter" := 0.4]> DEFAULT_WEIGHTS).
Proof.
  apply absent_weights_irrelevant.
  intros r ->%list_elem_of_singleton _. reflexivity.
Defined.

Lemma weight_scaled (k : R) (cw : gmap string R) (c : string) :
  weight (Rmult k <$> cw) c = k * weight cw c.
Proof.
  unfold weight. rewrite lookup_fmap. destruct (cw !! c); simpl; [reflexivity | lra].
Qed.

Lemma Rsum_scale_l (k : R) (l : list R) : Rsum (map (Rmult k) l) = k * Rsum l.
Proof. induction l as [|x l IH]; simpl; [lra | rewrite IH; lra]. Qed.

(** X6.  Only the proportions of the weights matter: multiplying every
    weight by the same non-zero factor changes neither the weighted measure
    nor the normalized weights (nor whether the call raises). *)
Theorem weights_scale_invariant (k : R) (cw : gmap string R) (rows : list row) :
  k <> 0 -> compute_weighted rows (Rmult k <$> cw) = compute_weighted rows cw.
Proof.
  intros Hk.
  assert (Hes : entries (Rmult k <$> cw) rows = entries cw rows).
  { apply entries_same_domain. intros r _ _. rewrite lookup_fmap.
    destruct (cw !! categorize_item r.1.1); simpl; split; intros [x Hx]; eauto; discriminate. }
  rewrite (compute_weighted_entries rows (Rmult k <$> cw) (entries cw rows)) by exact Hes.
  rewrite (compute_weighted_entries rows cw (entries cw rows)) by reflexivity.
  set (ps := distinct (map fst (entries cw rows))).
  assert (Hsum : Rsum (map (weight (Rmult k <$> cw)) ps) = k * Rsum (map (weight cw) ps)).
  { rewrite <- Rsum_scale_l, map_map. f_equal. apply map_ext. intros c. apply weight_scaled. }
  rewrite Hsum. destruct ps as [|p ps'] eqn:E; [reflexivity |]. rewrite <- E in *.
  set (T := Rsum (map (weight cw) ps)) in *.
  destruct (Req_dec_T (k * T) 0) as [Hz|Hz], (Req_dec_T T 0) as [Hz'|Hz'].
  - reflexivity.
  - exfalso. apply Rmult_integral in Hz as [?|?]; contradiction.
  - exfalso. apply Hz. rewrite Hz'. lra.
  - f_equal. f_equal.
    + f_equal. f_equal. apply map_ext. intros c. rewrite weight_scaled. f_equal. field. auto.
    + apply map_ext. intros c. rewrite weight_scaled. do 2 f_equal. field. auto.
Qed.

Lemma weights_scale_invariant_witness :
  compute_weighted [("Bananas", Num 1, Num 3)] (Rmult 100 <$> DEFAULT_WEIGHTS)
  = compute_weighted [("Bananas", Num 1, Num 3)] DEFAULT_WEIGHTS.
Proof. apply weights_scale_invariant. lra. Defined.





(* ===================================================================== *)
(** ** purchasing_power_after on every input *)
(* ===================================================================== *)

(** X8.  [purchasing_power_after] raises [ZeroDivisionError] exactly on the
    change -1 and returns not-a-number twice on [None]; on every other
    number [p] it returns [remaining] and [loss = 1 - remaining] with
    [remaining * (1 + p) = 1], so that the change is recovered from the
    remaining power.  For [p >= 0] the remaining power lies in (0, 1] and the
    loss in [0, 1); for a fall in prices, [-1 < p < 0], the remaining power
    exceeds 1 and the loss is negative. *)
Theorem purchasing_power_after_total :
  purchasing_power_after None = Ok (NaN, NaN)
  /\ purchasing_power_after (Some (Num (-1))) = Raise ZeroDivisionError
  /\ forall p : R, p <> -1 ->
       exists remaining loss : R,
         purchasing_power_after (Some (Num p)) = Ok (Num remaining, Num loss)
         /\ remaining * (1 + p) = 1 /\ p = 1 / remaining - 1 /\ loss = 1 - remaining
         /\ (0 <= p -> 0 < remaining <= 1 /\ 0 <= loss < 1)
         /\ (-1 < p < 0 -> 1 < remaining /\ loss < 0).
Proof.
  split; [reflexivity |]. split.
  - unfold purchasing_power_after. cbn [isnan fadd].
    replace (1 + -1) with 0 by lra. rewrite fdiv_zero. reflexivity.
  - intros p Hp. exists (1 / (1 + p)), (1 - 1 / (1 + p)).
    assert (Hd : 1 + p <> 0) by lra.
    split; [|split; [|split; [|split; [|split]]]].
    + unfold purchasing_power_after. cbn [isnan fadd]. rewrite fdiv_num by exact Hd.
      reflexivity.
    + field. exact Hd.
    + field; repeat split; first [exact Hd | lra].
    + reflexivity.
    + intros H0. assert (Hpos : 0 < 1 + p) by lra.
      assert (Hr : 0 < 1 / (1 + p)) by (apply Rdiv_lt_0_compat; lra).
      assert (Hle : 1 / (1 + p) <= 1).
      { apply Rmult_le_reg_r with (1 + p); [exact Hpos |].
        unfold Rdiv. rewrite Rmult_assoc, Rinv_l by exact Hd. lra. }
      lra.
    + intros [Hlo Hhi]. assert (Hpos : 0 < 1 + p) by lra.
      assert (Hgt : 1 < 1 / (1 + p)).
      { apply Rmult_lt_reg_r with (1 + p); [exact Hpos |].
        unfold Rdiv. rewrite Rmult_assoc, Rinv_l by exact Hd. lra. }
      lra.
Qed.

Lemma purchasing_power_after_total_witness :
  exists remaining loss : R,
    purchasing_power_after (Some (Num (-0.5))) = Ok (Num remaining, Num loss)
    /\ remaining * (1 + -0.5) = 1 /\ -0.5 = 1 / remaining - 1 /\ loss = 1 - remaining
    /\ (0 <= -0.5 -> 0 < remaining <= 1 /\ 0 <= loss < 1)
    /\ (-1 < -0.5 < 0 -> 1 < remaining /\ loss < 0).
Proof. apply (proj2 (proj2 purchasing_power_after_total) (-0.5)). lra. Defined.

(* ===================================================================== *)
(** ** year_avg when something goes wrong *)
(* ===================================================================== *)

Lemma year_avg_run (w : world) (sid : string) (year : Z) (key : string) (t : list event) :
  year_avg w sid year key t = (t ++ [HttpGet sid year key], year_avg_outcome w sid year).
Proof.
  unfold year_avg, year_avg_outcome, emit, lift, mbind, proc_bind, result_bind.
  cbv beta iota. destruct (fred w sid year); reflexivity.
Qed.

Lemma plain_year_avg_run (w : world) (sid : string) (year : Z) (key : string)
    (t : list event) :
  personal_inflation.year_avg w key sid year t
  = (t ++ [HttpGet sid year key], year_avg_outcome w sid year).
Proof.
  unfold personal_inflation.year_avg, year_avg_outcome, emit, lift, mbind, proc_bind,
    result_bind.
  cbv beta iota. destruct (fred w sid year); reflexivity.
Qed.

Lemma comprehension_raises {A B : Type} (f : A -> result B) (before after : list A)
    (x : A) (e : exn) :
  Forall (fun a => exists b, f a = Ok b) before -> f x = Raise e ->
  comprehension f (before ++ x :: after) = Raise e.
Proof.
  intros Hok Hx. induction Hok as [|a before [b Hb] _ IH]; simpl.
  - rewrite Hx. reflexivity.
  - rewrite Hb. simpl. rewrite IH. reflexivity.
Qed.

(** X9.  In both scripts [year_avg] makes its request and then lets errors
    through: an exception of the fetch is raised as it is, and a value that
    is neither marker and that [float] rejects makes the call raise that
    exception (the first such value decides); the value is not skipped. *)
Theorem year_avg_raises (w : world) (series_id key : string) (year : Z) (t : list event)
    (e : exn) :
  (fred w series_id year = Raise e
   \/ exists observations before o after,
        fred w series_id year = Ok observations
        /\ filter has_value observations = before ++ o :: after
        /\ Forall (fun o' => exists x, py_float w (value o') = Ok x) before
        /\ py_float w (value o) = Raise e) ->
  year_avg w series_id year key t = (t ++ [HttpGet series_id year key], Raise e)
  /\ personal_inflation.year_avg w key series_id year t
     = (t ++ [HttpGet series_id year key], Raise e).
Proof.
  intros H. rewrite year_avg_run, plain_year_avg_run.
  assert (Hout : year_avg_outcome w series_id year = Raise e).
  { unfold year_avg_outcome.
    destruct H as [-> | (obs & before & o & after & -> & Hkept & Hok & Ho)]; [reflexivity |].
    cbn [mbind result_bind]. unfold year_avg_of. rewrite kept_observations, Hkept.
    rewrite (comprehension_raises (fun o => py_float w (value o)) before after o e Hok Ho).
    reflexivity. }
  rewrite Hout. split; reflexivity.
Qed.

(** A witness of X9: the second monthly value is the text n/a. *)
Lemma year_avg_raises_witness :
  year_avg
    {| argv := []; environ := ∅; argparse := fun _ => HelpRequested;
       py_float := float_decimal;
       fred := fun _ _ => Ok [ {| value := "1.5" |}; {| value := "n/a" |} ];
       json_load := fun path => Raise (IOError path) |}
    "APU0000708111" 2024 "k" []
  = ([HttpGet "APU0000708111" 2024 "k"], Raise ValueError)
  /\ personal_inflation.year_avg
       {| argv := []; environ := ∅; argparse := fun _ => HelpRequested;
          py_float := float_decimal;
          fred := fun _ _ => Ok [ {| value := "1.5" |}; {| value := "n/a" |} ];
          json_load := fun path => Raise (IOError path) |}
       "k" "APU0000708111" 2024 []
     = ([HttpGet "APU0000708111" 2024 "k"], Raise ValueError).
Proof.
  apply (year_avg_raises _ "APU0000708111" "k" 2024 [] ValueError).
  right. exists [ {| value := "1.5" |}; {| value := "n/a" |} ],
                [ {| value := "1.5" |} ], {| value := "n/a" |}, [].
  split; [reflexivity |]. split; [reflexivity |]. split; [|reflexivity].
  constructor; [|constructor]. eexists. reflexivity.
Defined.

(* ===================================================================== *)
(** ** Runs of the richer script *)
(* ===================================================================== *)

#[local] Abbreviation fetch_body w args key :=
  (fun '(rows_for_calc, out_rows) '(item, (unit_, sid)) =>
     a ← year_avg w sid (year_a args) key;
     b ← year_avg w sid (year_b args) key;
     let out_rows :=
       out_rows ++ [[Text item; Text unit_; fixed3_or_blank a; fixed3_or_blank b;
                     Text ("BLS Average Price via FRED (" +:+ sid
                           +:+ "); annual mean of monthly")]] in
     if feq a a && feq b b && fgt a (Num 0) && fgt b (Num 0)
     then mret (rows_for_calc ++ [(item, a, b)], out_rows)
     else mret (rows_for_calc, out_rows)).

Lemma catalog_calls_requests (catalog : list (string * (string * string)))
    (ya yb : Z) (key : string) :
  catalog_calls catalog ya yb key = map (request_event key) (requests catalog ya yb).
Proof.
  unfold catalog_calls, requests. induction catalog as [|s catalog IH]; [reflexivity |].
  cbn [flat_map map app]. rewrite IH. reflexivity.
Qed.

Lemma average_ok (w : world) (sid : string) (year : Z) (x : pyfloat) :
  year_avg_outcome w sid year = Ok x -> average w sid year = x.
Proof. intros H. unfold average. rewrite H. reflexivity. Qed.


(** The fetch loop when a request fails: it stops there. *)
Lemma fetch_loop_failure (w : world) (args : arguments) (key : string)
    (catalog : list (string * (string * string)))
    (acc : list row * list (list csv_field)) (t : list event)
    (before after : list (string * Z)) (q : string * Z) (e : exn) :
  requests catalog (year_a args) (year_b args) = before ++ q :: after ->
  Forall (fun q' => exists x, year_avg_outcome w q'.1 q'.2 = Ok x) before ->
  year_avg_outcome w q.1 q.2 = Raise e ->
  for_each_proc (fetch_body w args key) catalog acc t
  = (t ++ map (request_event key) (before ++ [q]), Raise e).
Proof.
  revert acc t before.
  induction catalog as [|[item [unit_ sid]] catalog IH];
    intros [rows_for_calc out_rows] t before Hreq Hok Hq.
  - destruct before; discriminate.
  - cbn [requests flat_map app fst snd] in Hreq.
    fold (requests catalog (year_a args) (year_b args)) in Hreq.
    cbn [for_each_proc]. unfold mbind at 1, proc_bind at 1.
    unfold mbind at 1, proc_bind at 1. rewrite year_avg_run.
    destruct before as [|q1 before].
    + injection Hreq as <- _. cbn [fst snd] in Hq. rewrite Hq. reflexivity.
    + injection Hreq as <- Hreq. apply Forall_cons in Hok as [[a Ha] Hok].
      cbn [fst snd] in Ha. rewrite Ha.
      unfold mbind at 1, proc_bind at 1. rewrite year_avg_run.
      destruct before as [|q2 before].
      * injection Hreq as <- _. cbn [fst snd] in Hq. rewrite Hq.
        cbn [map app request_event fst snd]. rewrite <- app_assoc. reflexivity.
      * injection Hreq as <- Hreq. apply Forall_cons in Hok as [[b Hb] Hok].
        cbn [fst snd] in Hb. rewrite Hb.
        destruct (feq a a && feq b b && fgt a (Num 0) && fgt b (Num 0));
          cbn [mret proc_ret]; rewrite (IH _ _ before Hreq Hok Hq);
          cbn [map app request_event fst snd]; rewrite <- !app_assoc; reflexivity.
Qed.

(** X10.  When a fetch of the richer script fails, with the command line
    accepted and the credential set, the run consists of the requests up to
    the failing one and a traceback, and exits with status 1: no report is
    written and nothing is printed. *)
Theorem main_stops_at_failed_fetch (w : world) (args : arguments) (key : string)
    (before after : list (string * Z)) (q : string * Z) (e : exn) :
  argparse w (argv w) = Parsed args ->
  environ w !! "FRED_API_KEY" = Some key -> key <> "" ->
  requests SERIES (year_a args) (year_b args) = before ++ q :: after ->
  Forall (fun q' => exists x, year_avg_outcome w q'.1 q'.2 = Ok x) before ->
  year_avg_outcome w q.1 q.2 = Raise e ->
  (forall arg, e <> SystemExit arg) ->
  run (main w)
  = (map (request_event key) (before ++ [q]) ++ [Stderr "Traceback (most recent call last):"],
     1%Z).
Proof.
  intros Hargs Hkey Hne Hreq Hok Hq Hexn.
  unfold run, main. rewrite Hargs.
  unfold mbind at 1, proc_bind at 1. cbn [mret proc_ret].
  unfold mbind at 1, proc_bind at 1.
  unfold get_key at 1. rewrite Hkey. rewrite decide_False by exact Hne.
  cbn [mret proc_ret].
  unfold mbind at 1, proc_bind at 1.
  match goal with
  | |- context [for_each_proc ?body SERIES ?acc ?t] =>
      assert (Hloop : for_each_proc body SERIES acc t
                      = (t ++ map (request_event key) (before ++ [q]), Raise e))
        by exact (fetch_loop_failure w args key SERIES acc t before after q e Hreq Hok Hq);
      rewrite Hloop
  end.
  cbn [app]. destruct e as [| | | |arg]; try reflexivity.
  destruct (Hexn arg). reflexivity.
Qed.

(** A witness of X10: the server answers for the first series only. *)
Lemma main_stops_at_failed_fetch_witness :
  run (main {| argv := []; environ := {[ "FRED_API_KEY" := "k" ]};
               argparse := fun tokens => parse_flags tokens default_arguments;
               py_float := float_decimal;
               fred := fun sid _ =>
                         if decide (sid = "APU0000702111") then Ok [ {| value := "1.5" |} ]
                         else Raise (IOError "503");
               json_load := fun path => Raise (IOError path) |})
  = (map (request_event "k")
       ([("APU0000702111", 2000%Z); ("APU0000702111", 2024%Z)] ++ [("APU0000FF1101", 2000%Z)])
     ++ [Stderr "Traceback (most recent call last):"], 1%Z).
Proof.
  apply (main_stops_at_failed_fetch _ default_arguments "k"
           [("APU0000702111", 2000%Z); ("APU0000702111", 2024%Z)]
           (skipn 3 (requests SERIES 2000 2024)) ("APU0000FF1101", 2000%Z) (IOError "503")).
  - reflexivity.
  - reflexivity.
  - discriminate.
  - reflexivity.
  - repeat constructor; exists (mean_or_nan [1.5]);
      apply (year_avg_of_mean float_decimal [ {| value := "1.5" |} ] [1.5]);
      repeat constructor.
  - reflexivity.
  - discriminate.
Defined.















(* ===================================================================== *)
(** ** Runs of the plain script *)
(* ===================================================================== *)

#[local] Abbreviation plain_body w key :=
  (fun (_ : unit) '(item, (unit_, sid)) =>
     y2000 ← personal_inflation.year_avg w key sid 2000;
     y2024 ← personal_inflation.year_avg w key sid 2024;
     let src := ("BLS Average Price series via FRED (" +:+ sid
                 +:+ "); annual mean of monthly")%string in
     emit (CsvWrite "<stdout>"
             [[Text item; Text unit_; personal_inflation.fixed3_or_blank y2000;
               personal_inflation.fixed3_or_blank y2024; Text src]])).


(** The loop of the plain script when a request fails within an entry: the
    lines of the entries before it are out, the loop stops at the request. *)
Lemma plain_loop_failure (w : world) (key : string)
    (done rest : list (string * (string * string))) (s : string * (string * string))
    (before after : list (string * Z)) (q : string * Z) (e : exn) (t : list event) :
  Forall (fun q' => exists x, year_avg_outcome w q'.1 q'.2 = Ok x)
    (requests done 2000 2024) ->
  requests [s] 2000 2024 = before ++ q :: after ->
  Forall (fun q' => exists x, year_avg_outcome w q'.1 q'.2 = Ok x) before ->
  year_avg_outcome w q.1 q.2 = Raise e ->
  for_each_proc (plain_body w key) (done ++ s :: rest) tt t
  = (t ++ flat_map (plain_item_events w key) done ++ map (request_event key) (before ++ [q]),
     Raise e).
Proof.
  intros Hdone Hreq Hok Hq. revert t Hdone.
  induction done as [|[item [unit_ sid]] done IH]; intros t Hdone.
  - destruct s as [item [unit_ sid]]. cbn [app flat_map].
    cbn [requests flat_map app fst snd] in Hreq.
    cbn [for_each_proc]. unfold mbind at 1, proc_bind at 1.
    unfold mbind at 1, proc_bind at 1. rewrite plain_year_avg_run.
    destruct before as [|q1 before].
    + injection Hreq as <- _. cbn [fst snd] in Hq. rewrite Hq. reflexivity.
    + injection Hreq as <- Hreq. apply Forall_cons in Hok as [[a Ha] Hok].
      cbn [fst snd] in Ha. rewrite Ha.
      unfold mbind at 1, proc_bind at 1. rewrite plain_year_avg_run.
      destruct before as [|q2 before].
      * injection Hreq as <- _. cbn [fst snd] in Hq. rewrite Hq.
        cbn [map app request_event fst snd]. rewrite <- app_assoc. reflexivity.
      * destruct before; discriminate.
  - cbn [requests flat_map app fst snd] in Hdone.
    apply Forall_cons in Hdone as [[a Ha] Hdone].
    apply Forall_cons in Hdone as [[b Hb] Hdone].
    cbn [fst snd] in Ha, Hb.
    cbn [app for_each_proc]. unfold mbind at 1, proc_bind at 1.
    unfold mbind at 1, proc_bind at 1. rewrite plain_year_avg_run, Ha.
    unfold mbind at 1, proc_bind at 1. rewrite plain_year_avg_run, Hb.
    unfold emit at 1. rewrite (IH _ Hdone).
    cbn [flat_map]. unfold plain_item_events at 2. cbn [fst snd].
    rewrite (average_ok _ _ _ _ Ha), (average_ok _ _ _ _ Hb).
    rewrite <- !app_assoc. reflexivity.
Qed.



(** X14.  The plain script writes as it goes: when a fetch fails within a
    catalog entry, with an exception that is not [SystemExit], the header
    and the lines of all the entries before it are already on stdout; the
    requests of the failing entry up to the failing one have been made, no
    line is written for it or for the entries after it, and the run ends
    with a traceback and status 1. *)
Theorem plain_script_partial_output (w : world) (key : string)
    (done rest : list (string * (string * string))) (s : string * (string * string))
    (before after : list (string * Z)) (q : string * Z) (e : exn) :
  environ w !! "FRED_API_KEY" = Some key -> key <> "" ->
  personal_inflation.SERIES = done ++ s :: rest ->
  Forall (fun q' => exists x, year_avg_outcome w q'.1 q'.2 = Ok x)
    (requests done 2000 2024) ->
  requests [s] 2000 2024 = before ++ q :: after ->
  Forall (fun q' => exists x, year_avg_outcome w q'.1 q'.2 = Ok x) before ->
  year_avg_outcome w q.1 q.2 = Raise e -> (forall arg, e <> SystemExit arg) ->
  run (personal_inflation.script w)
  = (plain_header :: flat_map (plain_item_events w key) done
     ++ map (request_event key) (before ++ [q])
     ++ [Stderr "Traceback (most recent call last):"], 1%Z).
Proof.
  intros Hkey Hne Hsplit Hdone Hreq Hok Hq Hexn.
  unfold run, personal_inflation.script. rewrite Hkey. rewrite decide_False by exact Hne.
  unfold mbind at 1, proc_bind at 1. cbn [mret proc_ret].
  unfold personal_inflation.main.
  unfold mbind at 1, proc_bind at 1, emit at 1. cbv beta iota.
  rewrite Hsplit.
  match goal with
  | |- context [for_each_proc ?body (done ++ s :: rest) tt ?t] =>
      assert (Hloop : for_each_proc body (done ++ s :: rest) tt t
                      = (t ++ flat_map (plain_item_events w key) done
                         ++ map (request_event key) (before ++ [q]), Raise e))
        by exact (plain_loop_failure w key done rest s before after q e t
                    Hdone Hreq Hok Hq);
      rewrite Hloop
  end.
  cbn [app]. unfold plain_header. rewrite <- !app_assoc.
  destruct e as [| | | |arg]; try reflexivity.
  destruct (Hexn arg). reflexivity.
Qed.

(** A witness of X14: the server answers for the first series, and for the
    second one in the year 2000 only. *)
Lemma plain_script_partial_output_witness :
  let w := {| argv := []; environ := {[ "FRED_API_KEY"%string := "k"%string ]};
              argparse := fun tokens => parse_flags tokens default_arguments;
              py_float := float_decimal;
              fred := fun sid year =>
                        if decide (sid = "APU0000702111"%string \/ year = 2000%Z)
                        then Ok [ {| value := "1.5" |} ]
                        else Raise (IOError "503");
              json_load := fun path => Raise (IOError path) |} in
  run (personal_inflation.script w)
  = (plain_header
     :: flat_map (plain_item_events w "k") [("Bread (white, pan)", ("lb", "APU0000702111"))]
     ++ map (request_event "k") ([("APU0000FF1101", 2000%Z)] ++ [("APU0000FF1101", 2024%Z)])
     ++ [Stderr "Traceback (most recent call last):"], 1%Z).
Proof.
  intros w.
  apply (plain_script_partial_output w "k"
           [("Bread (white, pan)", ("lb", "APU0000702111"))]
           (skipn 2 personal_inflation.SERIES)
           ("Chicken breast, boneless", ("lb", "APU0000FF1101"))
           [("APU0000FF1101", 2000%Z)] [] ("APU0000FF1101", 2024%Z) (IOError "503")).
  - reflexivity.
  - discriminate.
  - reflexivity.
  - repeat constructor; exists (mean_or_nan [1.5]);
      apply (year_avg_of_mean float_decimal [ {| value := "1.5" |} ] [1.5]);
      repeat constructor.
  - reflexivity.
  - repeat constructor; exists (mean_or_nan [1.5]);
      apply (year_avg_of_mean float_decimal [ {| value := "1.5" |} ] [1.5]);
      repeat constructor.
  - reflexivity.
  - discriminate.
Defined.

(* ===================================================================== *)
(** ** The bar chart of the changes *)
(* ===================================================================== *)

Lemma zip_num (items : list string) (pcts : list R) :
  zip items (map Num pcts) = map num_pair (zip items pcts).
Proof.
  revert pcts. induction items as [|i items IH]; intros [|p pcts]; try reflexivity.
  cbn [map zip zip_with]. f_equal. apply IH.
Qed.

(** X15.  [plot_pct_changes] on numbers: the bars are the (item, change)
    pairs of the two lists, as many as the shorter list has, drawn from the
    largest change to the smallest, each label with its own bar, the heights
    in percent; pairs of equal change keep the order they came in. *)
Theorem plot_pct_changes_descending (items : list string) (pcts : list R) :
  exists pairs : list (string * R),
    plot_pct_changes items (map Num pcts)
    = (map fst pairs, map (fun p => Num (p.2 * 100)) pairs)
    /\ pairs ≡ₚ zip items pcts
    /\ StronglySorted (fun p q => q.2 <= p.2) pairs
    /\ forall k, filter (fun p => p.2 = k) pairs = filter (fun p => p.2 = k) (zip items pcts).
Proof.
  exists (py_sorted_reverse Rltb snd (zip items pcts)).
  destruct (py_sorted_reverse_spec Rltb snd Rltb_asym Rltb_le_trans (zip items pcts))
    as (Hp & Hs & Hf).
  split; [|split; [exact Hp | split; [|exact Hf]]].
  - unfold plot_pct_changes. rewrite zip_num, py_sorted_reverse_num.
    cbv zeta. rewrite !map_map. reflexivity.
  - eapply StronglySorted_weaken; [|exact Hs].
    intros p q H. apply Rltb_false in H. exact H.
Qed.

(* ===================================================================== *)
(** ** Runs that end normally *)
(* ===================================================================== *)


















(* ===================================================================== *)
(** ** Rules and default weights *)
(* ===================================================================== *)

Lemma categorize_with_range (rules : list (string * list string)) (n : string) :
  categorize_with rules n = "unclassified" \/ categorize_with rules n ∈ map fst rules.
Proof.
  induction rules as [|[cat needles] rules IH]; [left; reflexivity |].
  cbn [categorize_with map fst]. destruct (any_needle_in needles n).
  - right. apply list_elem_of_here.
  - destruct IH as [IH|IH]; [left; exact IH | right; apply list_elem_of_further, IH].
Qed.

(** X17.  Every category the rules can assign has a default weight, and
    "unclassified" has none: under the default weights the rows that
    [compute_weighted] passes over for want of a weight are exactly those
    of the items no rule matches. *)
Theorem default_weights_cover_rules (name : string) :
  DEFAULT_WEIGHTS !! categorize_item name = None <-> categorize_item name = "unclassified".
Proof.
  unfold categorize_item.
  destruct (categorize_with_range CATEGORY_KEYWORDS (lower name)) as [H|H].
  - rewrite H. split; [reflexivity | intros _; reflexivity].
  - cbn [CATEGORY_KEYWORDS map fst] in H.
    repeat (apply elem_of_cons in H as [H|H];
            [rewrite H; split; [intros E; vm_compute in E| ]; discriminate |]).
    inversion H.
Qed.
